(** * TextGenerator: a client of a remote chat-completion endpoint

    Shallow embedding of [src/services/llama/generation.py].

    The Python class keeps one attribute that changes, [_session]; the
    rest of what its methods do is visible only through the HTTP client
    sessions it creates and closes, the requests it hands to them and the
    lines it logs.  The embedding therefore runs every method in a small
    state-and-exception monad over a [world] that holds the instance, the
    store of client sessions, the log and the requests issued.

    Python [str] values are [string]s holding their UTF-8 encoding, so a
    non-ASCII character is a run of bytes that are all at least 128.

    [json.dumps] is modelled with the three ways it fails (a class it
    cannot write, an [int] beyond the limit on digits, nesting beyond
    the recursion limit), and a reader of JSON text states what the text
    it returns stands for. *)

From Stdlib Require Import String Ascii List ZArith Lia Bool.
From Stdlib Require Import DecimalString DecimalPos DecimalZ.
From stdpp Require Import base option list strings.
Import ListNotations.

#[local] Open Scope string_scope.
#[local] Open Scope list_scope.

(** ** Python values *)

Module Py.

(** The double quote, which a string literal of this file cannot hold. *)
Definition dq : string := String (ascii_of_nat 34) EmptyString.

(** A raised exception: its class name and [str(e)].  These are the
    exceptions the calls made here raise themselves, all of them
    subclasses of [Exception].  What is thrown into the task from outside
    ([asyncio.CancelledError], [KeyboardInterrupt]) is not an outcome of
    any call and is left out; [except Exception] would not catch it. *)
Record exn : Type := Exn { exn_class : string; exn_str : string }.

(** What evaluating an expression or a call yields. *)
Inductive outcome (A : Type) : Type :=
| Returns (a : A)
| Raises (e : exn).
Arguments Returns {A} a.
Arguments Raises {A} e.

(** What the interpreter has been set to allow: the longest decimal
    text an [int] may be converted to ([sys.get_int_max_str_digits()],
    4300 unless changed, 0 for no limit) and how many nested containers
    the encoder may still enter before the recursion limit is hit. *)
Class interpreter : Type := Interpreter {
  max_str_digits : N;
  recursion_budget : nat
}.

(** A [float] is only ever printed here, never computed with: a finite
    one is kept as the text [float.__repr__] gives for it. *)
Inductive pyfloat : Type :=
| FNaN
| FInf
| FNegInf
| FFinite (repr : string).

(** The key of a dict item: a [str], an [int], a [float], a [bool],
    [None], or a hashable object of some other class (a [tuple], ...). *)
Inductive dkey : Type :=
| KStr (s : string)
| KInt (z : Z)
| KFloat (f : pyfloat)
| KBool (b : bool)
| KNone
| KObj (cls : string).

(** Python values: [None], [bool], [int], [float], [str], [list] (a
    [tuple], which [json] writes like a list, is not told apart), a
    [dict] (items in insertion order, keys in [K]), and an object of
    some other class ([set], [bytes], ...) that [json] cannot serialize.
    Values are trees: a container that holds itself is not among them. *)
#[warnings="-register-all"]
Inductive pyval_ (K : Type) : Type :=
| PNone
| PBool (b : bool)
| PInt (z : Z)
| PFloat (f : pyfloat)
| PStr (s : string)
| PList (l : list (pyval_ K))
| PDict (d : list (K * pyval_ K))
| PObj (cls : string).
Arguments PNone {K}.
Arguments PBool {K} b.
Arguments PInt {K} z.
Arguments PFloat {K} f.
Arguments PStr {K} s.
Arguments PList {K} l.
Arguments PDict {K} d.
Arguments PObj {K} cls.

(** What [response.json()] can give, what the payload is made of and
    what [generate_text] returns: dicts keyed by [str]. *)
Abbreviation pyval := (pyval_ string).

(** What a caller can pass as [result_data]: dicts keyed by anything
    hashable. *)
Abbreviation pyobj := (pyval_ dkey).

(** [isinstance(v, str)] *)
Definition is_str {K} (v : pyval_ K) : bool :=
  match v with PStr _ => true | _ => false end.

(** [type(v).__name__] *)
Definition type_name {K} (v : pyval_ K) : string :=
  match v with
  | PNone => "NoneType"
  | PBool _ => "bool"
  | PInt _ => "int"
  | PFloat _ => "float"
  | PStr _ => "str"
  | PList _ => "list"
  | PDict _ => "dict"
  | PObj cls => cls
  end.

(** [int.__repr__] with no limit on the digits *)
Definition int_repr (z : Z) : string := NilZero.string_of_int (Z.to_int z).

Definition digits_exceeded (limit : N) : exn :=
  Exn "ValueError"
      ("Exceeds the limit (" +:+ int_repr (Z.of_N limit)
       +:+ " digits) for integer string conversion; "
       +:+ "use sys.set_int_max_str_digits() to increase the limit").

(** [int.__repr__] as the interpreter runs it: an [int] with more
    decimal digits than the limit raises. *)
Definition int_text `{interpreter} (z : Z) : outcome string :=
  if N.eqb max_str_digits 0 then Returns (int_repr z)
  else if N.ltb max_str_digits (N.of_nat (String.length (int_repr (Z.abs z))))
       then Raises (digits_exceeded max_str_digits)
       else Returns (int_repr z).

(** ** [json.dumps(o, ensure_ascii=False)] *)

Definition hex_digit (n : nat) : string :=
  String (ascii_of_nat (if Nat.ltb n 10 then 48 + n else 87 + n)) EmptyString.

(** One character under [ESCAPE_DCT]: the backslash, the double quote
    and the control characters below 0x20 are replaced, every other
    character stands for itself. *)
Definition escape_char (c : ascii) : string :=
  let n := nat_of_ascii c in
  if Nat.eqb n 92 then "\\"
  else if Nat.eqb n 34 then "\" +:+ dq
  else if Nat.eqb n 8 then "\b"
  else if Nat.eqb n 12 then "\f"
  else if Nat.eqb n 10 then "\n"
  else if Nat.eqb n 13 then "\r"
  else if Nat.eqb n 9 then "\t"
  else if Nat.ltb n 32 then "\u00" +:+ hex_digit (n / 16) +:+ hex_digit (n mod 16)
  else String c EmptyString.

Fixpoint escape (s : string) : string :=
  match s with
  | EmptyString => EmptyString
  | String c r => escape_char c +:+ escape r
  end.

(** [json.encoder.py_encode_basestring] *)
Definition encode_basestring (s : string) : string := dq +:+ escape s +:+ dq.

(** [floatstr] of the encoder, with [allow_nan] left at its default. *)
Definition floatstr (f : pyfloat) : string :=
  match f with
  | FNaN => "NaN"
  | FInf => "Infinity"
  | FNegInf => "-Infinity"
  | FFinite r => r
  end.

Definition not_serializable (cls : string) : exn :=
  Exn "TypeError" ("Object of type " +:+ cls +:+ " is not JSON serializable").

Definition bad_key (cls : string) : exn :=
  Exn "TypeError" ("keys must be str, int, float, bool or None, not " +:+ cls).

Definition too_deep : exn :=
  Exn "RecursionError" "maximum recursion depth exceeded while encoding a JSON object".

(** The text a dict key is written as, before it is quoted. *)
Definition key_text `{interpreter} (k : dkey) : outcome string :=
  match k with
  | KStr s => Returns s
  | KInt z => int_text z
  | KFloat f => Returns (floatstr f)
  | KBool true => Returns "true"
  | KBool false => Returns "false"
  | KNone => Returns "null"
  | KObj cls => Raises (bad_key cls)
  end.

(** The encoder with the default separators [", "] and [": "] and no
    indentation, with [budget] containers still to be entered.  The
    first value or key that cannot be written raises. *)
Fixpoint json_dumps_at `{interpreter} (budget : nat) (o : pyobj) {struct o}
  : outcome string :=
  match o with
  | PNone => Returns "null"
  | PBool true => Returns "true"
  | PBool false => Returns "false"
  | PInt z => int_text z
  | PFloat f => Returns (floatstr f)
  | PStr s => Returns (encode_basestring s)
  | PList l =>
      match budget with
      | 0 => Raises too_deep
      | S inner =>
          let fix items (first : bool) (l : list pyobj) : outcome string :=
            match l with
            | [] => Returns "]"
            | x :: r =>
                match json_dumps_at inner x with
                | Raises e => Raises e
                | Returns sx =>
                    match items false r with
                    | Raises e => Raises e
                    | Returns sr => Returns ((if first then "" else ", ") +:+ sx +:+ sr)
                    end
                end
            end in
          match items true l with
          | Raises e => Raises e
          | Returns body => Returns ("[" +:+ body)
          end
      end
  | PDict d =>
      match budget with
      | 0 => Raises too_deep
      | S inner =>
          let fix items (first : bool) (d : list (dkey * pyobj)) : outcome string :=
            match d with
            | [] => Returns "}"
            | (k, x) :: r =>
                match key_text k with
                | Raises e => Raises e
                | Returns sk =>
                    match json_dumps_at inner x with
                    | Raises e => Raises e
                    | Returns sx =>
                        match items false r with
                        | Raises e => Raises e
                        | Returns sr =>
                            Returns ((if first then "" else ", ")
                                     +:+ encode_basestring sk +:+ ": " +:+ sx +:+ sr)
                        end
                    end
                end
            end in
          match items true d with
          | Raises e => Raises e
          | Returns body => Returns ("{" +:+ body)
          end
      end
  | PObj cls => Raises (not_serializable cls)
  end.

Definition json_dumps `{interpreter} (o : pyobj) : outcome string :=
  json_dumps_at recursion_budget o.

(** [needle in hay] *)
Fixpoint contains (needle hay : string) : bool :=
  String.prefix needle hay ||
  match hay with
  | EmptyString => false
  | String _ rest => contains needle rest
  end.

(** ** Subscripts *)

(** [d[k]] on the items of a dict *)
Fixpoint dict_get (k : string) (d : list (string * pyval)) : option pyval :=
  match d with
  | [] => None
  | (k', v) :: r => if String.eqb k k' then Some v else dict_get k r
  end.

Definition sq : string := "'".

Definition not_subscriptable (v : pyval) : exn :=
  Exn "TypeError" (sq +:+ type_name v +:+ "' object is not subscriptable").

(** [o[k]] for a [str] subscript [k] (messages as CPython 3.11 words them) *)
Definition getitem_str (k : string) (o : pyval) : outcome pyval :=
  match o with
  | PDict d =>
      match dict_get k d with
      | Some v => Returns v
      | None => Raises (Exn "KeyError" (sq +:+ k +:+ sq))
      end
  | PList _ => Raises (Exn "TypeError" "list indices must be integers or slices, not str")
  | PStr _ => Raises (Exn "TypeError" "string indices must be integers, not 'str'")
  | _ => Raises (not_subscriptable o)
  end.

(** Length in bytes of the UTF-8 sequence that the lead byte [c] opens. *)
Definition utf8_width (c : ascii) : nat :=
  let n := nat_of_ascii c in
  if Nat.ltb n 192 then 1 else if Nat.ltb n 224 then 2 else if Nat.ltb n 240 then 3 else 4.

(** [o[0]]: the first element of a list, the first character of a
    string; a dict keyed by strings has no key equal to [0]. *)
Definition getitem_0 (o : pyval) : outcome pyval :=
  match o with
  | PList (x :: _) => Returns x
  | PList [] => Raises (Exn "IndexError" "list index out of range")
  | PStr (String c r) => Returns (PStr (String c (String.substring 0 (utf8_width c - 1) r)))
  | PStr EmptyString => Raises (Exn "IndexError" "string index out of range")
  | PDict _ => Raises (Exn "KeyError" "0")
  | _ => Raises (not_subscriptable o)
  end.

(** ** Reading JSON text back

    [loads_value] reads the layout [json.dumps] writes (items separated
    by [", "], keys by [": "]), as [json.loads] does, into values whose
    dicts are keyed by [str]. *)



























End Py.
Import Py.

(** ** The world a generator runs in *)

Inductive level : Type := INFO | DEBUG | ERROR.

(** What [session.post(url, headers=..., json=...)] hands to the network. *)
Record request : Type := Request {
  req_url : string;
  req_headers : list (string * string);
  req_json : pyval
}.

(** A received response: its status, and what [await response.text()]
    and [await response.json()] give or raise (the payload may be cut
    short, undecodable, or not JSON). *)
Record response : Type := Response {
  status : Z;
  text : outcome string;
  json : outcome pyval
}.

(** The remote side: it answers a request, or the transport fails. *)
Inductive reply : Type :=
| Refused (e : exn)
| Answered (r : response).

Definition endpoint : Type := request -> reply.

(** [config.services] *)
Record config : Type := Config {
  ai_api : string;
  ai_key : string;
  ai_model : string
}.

(** The attributes of a [TextGenerator].  [_session] is [None] or a
    reference into the store of client sessions.  [ClientSession] defines
    neither [__bool__] nor [__len__], so the tests [if self._session] and
    [if not self._session] only tell [None] from a reference: a closed
    session is as truthy as an open one. *)
Record TextGenerator : Type := Build_TextGenerator {
  url : string;
  headers : list (string * string);
  model : string;
  _session : option nat
}.

(** [sessions] is the store of [aiohttp.ClientSession] objects created so
    far, each one open ([true]) or closed ([false]); a reference is an
    index into it.  [sent] lists the requests that reached the network,
    each with the session it went through. *)
Record world : Type := World {
  self : TextGenerator;
  sessions : list bool;
  log : list (level * string);
  sent : list (nat * request)
}.

(** *** State and exceptions *)

Definition py (A : Type) : Type := world -> outcome A * world.

Definition ret {A} (a : A) : py A := fun w => (Returns a, w).

Definition raise {A} (e : exn) : py A := fun w => (Raises e, w).

Definition bind {A B} (c : py A) (k : A -> py B) : py B :=
  fun w =>
    match c w with
    | (Returns a, w1) => k a w1
    | (Raises e, w1) => (Raises e, w1)
    end.

(** [try: body  except Exception as e: handler(e)]: every exception
    of [exn] is an [Exception], so the handler sees them all. *)
Definition try_except {A} (body : py A) (handler : exn -> py A) : py A :=
  fun w =>
    match body w with
    | (Returns a, w1) => (Returns a, w1)
    | (Raises e, w1) => handler e w1
    end.

Definition lift {A} (o : outcome A) : py A := fun w => (o, w).

Declare Scope py_scope.
Delimit Scope py_scope with py.
Notation "x <- c ;; k" := (bind c (fun x => k))
  (at level 100, c at next level, right associativity) : py_scope.
Notation "c ;; k" := (bind c (fun _ => k))
  (at level 100, right associativity) : py_scope.
#[local] Open Scope py_scope.

Definition result {A} (r : outcome A * world) : outcome A := fst r.
Definition after {A} (r : outcome A * world) : world := snd r.

(** *** The collaborators: logger and aiohttp *)

Definition logger (lv : level) (msg : string) : py unit :=
  fun w => (Returns tt,
            World (self w) (sessions w) (log w ++ [(lv, msg)]) (sent w)).

(** [aiohttp.ClientSession()]: a new open session. *)
Definition ClientSession : py nat :=
  fun w => (Returns (length (sessions w)),
            World (self w) (sessions w ++ [true]) (log w) (sent w)).

(** [await session.close()]: closing a closed session does nothing. *)
Definition session_close (sid : nat) : py unit :=
  fun w => (Returns tt,
            World (self w) (<[sid := false]> (sessions w)) (log w) (sent w)).

Definition session_closed : exn := Exn "RuntimeError" "Session is closed".

(** [async with session.post(...) as response]: a closed session refuses
    the request before anything is sent. *)
Definition session_post (srv : endpoint) (sid : nat) (req : request) : py response :=
  fun w =>
    match sessions w !! sid with
    | Some true =>
        let w1 := World (self w) (sessions w) (log w) (sent w ++ [(sid, req)]) in
        match srv req with
        | Refused e => (Raises e, w1)
        | Answered r => (Returns r, w1)
        end
    | _ => (Raises session_closed, w)
    end.

(** ** class TextGenerator *)

Definition get_self : py TextGenerator := fun w => (Returns (self w), w).

(** [self._session = s] *)
Definition set_session (s : option nat) : py unit :=
  fun w =>
    let g := self w in
    (Returns tt,
     World (Build_TextGenerator (url g) (headers g) (model g) s)
           (sessions w) (log w) (sent w)).

Definition __init__ (cfg : config) : TextGenerator :=
  {| url := ai_api cfg;
     headers := [("Content-Type", "application/json");
                 ("Authorization", "Bearer " +:+ ai_key cfg)];
     model := ai_model cfg;
     _session := None |}.

(** The world right after [TextGenerator()]. *)
Definition fresh (cfg : config) : world := World (__init__ cfg) [] [] [].

(** [__aenter__] returns [self]; nothing here looks at that. *)
Definition __aenter__ : py unit :=
  sid <- ClientSession ;;
  set_session (Some sid).

(** The three exception arguments are not looked at. *)
Definition __aexit__ : py unit :=
  g <- get_self ;;
  match _session g with
  | Some sid => session_close sid
  | None => ret tt
  end.

Definition close : py unit :=
  g <- get_self ;;
  match _session g with
  | Some sid => session_close sid ;; set_session None
  | None => ret tt
  end.

(** The instruction text of [_get_system_prompt], as the source has it. *)
Definition instruction_template : string :=
  "
            Ты бот-ассистент для работы с товарами.
            
            ВАЖНО: Ты должен ВСЕГДА использовать точные значения из предоставленных данных.
            НЕ ПРИДУМЫВАЙ значения, которых нет в данных.
            НЕ ПИШИ " +:+ dq +:+
  "Не указано" +:+ dq +:+
  " если значение есть в данных.
            
            Инструкции по обработке данных:
            1. Проанализируй предоставленные данные о товаре (они в формате JSON)
            2. Используй ТОЧНО те значения, которые есть в данных
            3. Для цен используй следующие поля:
               - " +:+ dq +:+
  "Цена" +:+ dq +:+
  " для базовой цены
               - " +:+ dq +:+
  "Цена с НДС" +:+ dq +:+
  " для цены с НДС
               - " +:+ dq +:+
  "РРЦ" +:+ dq +:+
  " для рекомендованной розничной цены
            4. Если пользователь спрашивает о цене, укажи все доступные цены из данных
            5. Если значение в данных равно null, None или пустой строке, то пиши " +:+ dq +:+
  "Не указано" +:+ dq +:+
  "
            
            Сначала дай прямой ответ на вопрос пользователя, затем выведи полную информацию о товаре:
            
            Шаблон ответа:  
                ### 1. Товар:
                    - Артикул: [значение из поля " +:+ dq +:+
  "Артикул" +:+ dq +:+
  "]
                    - Наименование: [значение из поля " +:+ dq +:+
  "Наименование" +:+ dq +:+
  "]
                    - Описание: [значение из поля " +:+ dq +:+
  "Описание" +:+ dq +:+
  "]

                ### 2. Цены:
                    - Базовая цена: [значение из поля " +:+ dq +:+
  "Цена" +:+ dq +:+
  "]
                    - Цена с НДС: [значение из поля " +:+ dq +:+
  "Цена с НДС" +:+ dq +:+
  "]
                    - РРЦ: [значение из поля " +:+ dq +:+
  "РРЦ" +:+ dq +:+
  "]
                    - Акции/Скидки: Не указаны

                ### 3. Характеристики:
                    - Ед. изм.: [значение из поля " +:+ dq +:+
  "Ед. изм." +:+ dq +:+
  "]
                    - Кол-во листов: [значение из поля " +:+ dq +:+
  "Кол-во листов" +:+ dq +:+
  "]
                    - Формат: [значение из поля " +:+ dq +:+
  "Формат" +:+ dq +:+
  "]
                    - Класс: [значение из поля " +:+ dq +:+
  "Класс" +:+ dq +:+
  "]
                    - Материал: [значение из поля " +:+ dq +:+
  "Материал" +:+ dq +:+
  "]
                    - Карты, стенды, таблицы: [значение из поля " +:+ dq +:+
  "Карты, стенды, таблицы" +:+ dq +:+
  "]

                ### 4. Наличие:
                    - Статус: [Требует уточнения]

                ### 5. Рекомендации:
                    Похожие товары:
                        - (Артикул 1: [значение 1]), [Название 1], цена 1: [значение 1], преимущество 1: [описание 1]
                        - (Артикул 2: [значение 2]), [Название 2], цена 2: [значение 2], преимущество 2: [описание 2]
            ".

Definition data_label : string := " Вот данные для анализа (в формате JSON): ".

Definition _get_system_prompt (result_data : string) : string :=
  instruction_template +:+ data_label +:+ result_data.

Definition _prepare_payload (g : TextGenerator) (query result_data : string) : pyval :=
  PDict [
    ("model", PStr (model g));
    ("messages", PList [
       PDict [("role", PStr "system");
              ("content", PStr (_get_system_prompt result_data))];
       PDict [("role", PStr "user");
              ("content", PStr ("Запрос: " +:+ query +:+ "."))]
    ])
  ].

Definition fallback : string := "Извините, произошла ошибка при генерации ответа.".

(** From here on the interpreter the generator runs under is fixed. *)
Section Generator.
Context `{Interp : interpreter}.

(** [if not isinstance(result_data, str): result_data = json.dumps(...)] *)
Definition normalize (result_data : pyobj) : outcome string :=
  match result_data with
  | PStr s => Returns s
  | _ => json_dumps result_data
  end.

(** [resp_data['choices'][0]['message']['content']] *)
Definition content_of (resp_data : pyval) : outcome pyval :=
  match getitem_str "choices" resp_data with
  | Raises e => Raises e
  | Returns choices =>
      match getitem_0 choices with
      | Raises e => Raises e
      | Returns choice =>
          match getitem_str "message" choice with
          | Raises e => Raises e
          | Returns message => getitem_str "content" message
          end
      end
  end.

(** The body of the [try] in [generate_text]. *)
Definition generate_text_try (srv : endpoint) (query : string) (result_data : pyobj)
  : py pyval :=
  result_data <- lift (normalize result_data) ;;
  g <- get_self ;;
  logger INFO ("Отправка запроса к API: " +:+ url g) ;;
  logger DEBUG ("Запрос: " +:+ query) ;;
  logger DEBUG ("Данные: " +:+ result_data) ;;
  let payload := _prepare_payload g query result_data in
  match _session g with
  | Some _ => ret tt
  | None => sid <- ClientSession ;; set_session (Some sid)
  end ;;
  g <- get_self ;;
  match _session g with
  | None => raise (Exn "AttributeError" "'NoneType' object has no attribute 'post'")
  | Some sid =>
      response <- session_post srv sid (Request (url g) (headers g) payload) ;;
      if negb (Z.eqb (status response) 200) then
        error_text <- lift (text response) ;;
        logger ERROR ("Ошибка API: " +:+ int_repr (status response)
                      +:+ ", " +:+ error_text) ;;
        ret (PStr fallback)
      else
        resp_data <- lift (json response) ;;
        lift (content_of resp_data)
  end.

Definition generate_text (srv : endpoint) (query : string) (result_data : pyobj)
  : py pyval :=
  try_except
    (generate_text_try srv query result_data)
    (fun e =>
       logger ERROR ("Ошибка при генерации текста: " +:+ exn_str e) ;;
       ret (PStr fallback)).

(** ** Observations on a world *)

(** The handle is usable: it is absent, or it refers to an open session. *)
Definition usableb (w : world) : bool :=
  match _session (self w) with
  | None => true
  | Some sid =>
      match sessions w !! sid with
      | Some true => true
      | _ => false
      end
  end.

Definition usable (w : world) : Prop := usableb w = true.

(** How many of the sessions created so far are still open. *)
Definition open_count (w : world) : nat :=
  length (List.filter (fun b : bool => b) (sessions w)).

(** The session a call of [generate_text] goes through: the one held,
    or the one it creates. *)
Definition the_sid (w : world) : nat :=
  match _session (self w) with
  | Some sid => sid
  | None => length (sessions w)
  end.

Definition the_request (w : world) (query data : string) : request :=
  Request (url (self w)) (headers (self w)) (_prepare_payload (self w) query data).

(** The world once the three lines are logged and a session is held. *)
Definition prepared (query data : string) (w : world) : world :=
  World
    (Build_TextGenerator (url (self w)) (headers (self w)) (model (self w))
                         (Some (the_sid w)))
    (match _session (self w) with
     | Some _ => sessions w
     | None => sessions w ++ [true]
     end)
    (log w ++ [(INFO, "Отправка запроса к API: " +:+ url (self w));
               (DEBUG, "Запрос: " +:+ query);
               (DEBUG, "Данные: " +:+ data)])
    (sent w).

Definition with_sent (e : nat * request) (w : world) : world :=
  World (self w) (sessions w) (log w) (sent w ++ [e]).

Definition with_log (e : level * string) (w : world) : world :=
  World (self w) (sessions w) (log w ++ [e]) (sent w).

Definition api_error (st : Z) (body : string) : level * string :=
  (ERROR, "Ошибка API: " +:+ int_repr st +:+ ", " +:+ body).

Definition caught (e : exn) : level * string :=
  (ERROR, "Ошибка при генерации текста: " +:+ exn_str e).

(** [response.json()] followed by the four subscripts. *)
Definition parsed_content (r : response) : outcome pyval :=
  match json r with
  | Raises e => Raises e
  | Returns body => content_of body
  end.

(** ** Scenarios *)

(** An interpreter with the default limit on digits and room for 900
    nested containers. *)
Definition cpython : interpreter := Interpreter 4300 900.

Definition cfg0 : config := Config "http://llm.local/v1/chat/completions" "KEY" "llama".

(** An endpoint that answers 200 with the body
    [{choices: [{message: {content: c}}]}]. *)
Definition completion (c : pyval) : endpoint :=
  fun _ => Answered (Response 200 (Returns "")
    (Returns (PDict [("choices",
       PList [PDict [("message", PDict [("content", c)])]])]))).

(** An endpoint that answers 500. *)
Definition overloaded : endpoint :=
  fun _ => Answered (Response 500 (Returns "Internal Server Error")
                       (Raises (Exn "ContentTypeError" "unexpected mimetype"))).

(** An endpoint that answers 500 and whose body cannot be read. *)
Definition truncated : endpoint :=
  fun _ => Answered (Response 500
                       (Raises (Exn "ClientPayloadError" "Response payload is not completed"))
                       (Raises (Exn "ClientPayloadError" "Response payload is not completed"))).

(** [async with generator: pass] *)
Definition scope_entered_and_left (cfg : config) : world :=
  after (__aexit__ (after (__aenter__ (fresh cfg)))).


(** ** Sequential use *)

(** One method call on the instance. *)
Inductive call : Type :=
| Enter
| Exit
| Close
| Generate (srv : endpoint) (query : string) (result_data : pyobj).

Definition perform (c : call) (w : world) : world :=
  match c with
  | Enter => after (__aenter__ w)
  | Exit => after (__aexit__ w)
  | Close => after (close w)
  | Generate srv query d => after (generate_text srv query d w)
  end.

Definition run (cs : list call) (w : world) : world :=
  List.fold_left (fun w c => perform c w) cs w.

Definition enters (c : call) : bool :=
  match c with Enter => true | _ => false end.

(** The handle, when present, refers to a session of the store. *)
Definition handle_valid (w : world) : Prop :=
  match _session (self w) with
  | Some sid => sid < length (sessions w)
  | None => True
  end.

(** No session is open but the one the handle refers to. *)
Definition only_held_open (w : world) : Prop :=
  forall i : nat, sessions w !! i = Some true -> _session (self w) = Some i.

(** What a call does to the attributes of the instance and to the store
    of sessions. *)
Definition session_effect (c : call) (w : world) : TextGenerator * list bool :=
  match c with
  | Enter =>
      (Build_TextGenerator (url (self w)) (headers (self w)) (model (self w))
                           (Some (length (sessions w))),
       sessions w ++ [true])
  | Exit =>
      (self w,
       match _session (self w) with
       | Some sid => <[sid := false]> (sessions w)
       | None => sessions w
       end)
  | Close =>
      match _session (self w) with
      | Some sid =>
          (Build_TextGenerator (url (self w)) (headers (self w)) (model (self w)) None,
           <[sid := false]> (sessions w))
      | None => (self w, sessions w)
      end
  | Generate srv query d =>
      match normalize d with
      | Returns data =>
          (self (prepared query data w), sessions (prepared query data w))
      | Raises _ => (self w, sessions w)
      end
  end.

(** ** More scenarios and observations *)

(** An endpoint that cannot be reached. *)
Definition unreachable : endpoint :=
  fun _ => Refused (Exn "ClientConnectorError" "Cannot connect to host llm.local:443").

(** An endpoint that answers 200 with the body [{}]. *)
Definition empty_object : endpoint :=
  fun _ => Answered (Response 200 (Returns "{}") (Returns (PDict []))).

Definition is_generate (c : call) : bool :=
  match c with Generate _ _ _ => true | _ => false end.

(** Induction on a value that reaches the elements of lists and dicts. *)
Fixpoint pyval_nested_ind {K : Type} (P : pyval_ K -> Prop)
    (HNone : P PNone) (HBool : forall b, P (PBool b)) (HInt : forall z, P (PInt z))
    (HFloat : forall f, P (PFloat f)) (HStr : forall s, P (PStr s))
    (HList : forall l, List.Forall P l -> P (PList l))
    (HDict : forall d, List.Forall (fun kv => P (snd kv)) d -> P (PDict d))
    (HObj : forall cls, P (PObj cls))
    (v : pyval_ K) {struct v} : P v :=
  match v with
  | PNone => HNone
  | PBool b => HBool b
  | PInt z => HInt z
  | PFloat f => HFloat f
  | PStr s => HStr s
  | PList l =>
      HList l
        ((fix go (l : list (pyval_ K)) : List.Forall P l :=
            match l with
            | [] => @List.Forall_nil _ P
            | x :: r =>
                @List.Forall_cons _ P x r
                  (pyval_nested_ind P HNone HBool HInt HFloat HStr HList HDict HObj x)
                  (go r)
            end) l)
  | PDict d =>
      HDict d
        ((fix go (d : list (K * pyval_ K)) : List.Forall (fun kv => P (snd kv)) d :=
            match d with
            | [] => @List.Forall_nil _ (fun kv => P (snd kv))
            | kv :: r =>
                @List.Forall_cons _ (fun kv => P (snd kv)) kv r
                  (pyval_nested_ind P HNone HBool HInt HFloat HStr HList HDict HObj (snd kv))
                  (go r)
            end) d)
  | PObj cls => HObj cls
  end.

(** The requests a call adds to [sent]. *)
Definition requests_of (c : call) (w : world) : list (nat * request) :=
  match c with
  | Generate srv query d =>
      match normalize d with
      | Returns data =>
          if usableb w then [(the_sid w, the_request w query data)] else []
      | Raises _ => []
      end
  | _ => []
  end.

(** The three lines a call logs once the data is normalized. *)
Definition announcement (w : world) (query data : string) : list (level * string) :=
  [(INFO, "Отправка запроса к API: " +:+ url (self w));
   (DEBUG, "Запрос: " +:+ query);
   (DEBUG, "Данные: " +:+ data)].

(** A request as a generator configured with [cfg] issues them. *)
Definition configured (cfg : config) (e : nat * request) : Prop :=
  req_url (snd e) = ai_api cfg /\
  req_headers (snd e) = [("Content-Type", "application/json");
                         ("Authorization", "Bearer " +:+ ai_key cfg)] /\
  getitem_str "model" (req_json (snd e)) = Returns (PStr (ai_model cfg)).

(** ** What the encoder accepts *)

(** The digits of [z] are within the interpreter's limit. *)
Definition int_fits (z : Z) : bool :=
  N.eqb max_str_digits 0 ||
  negb (N.ltb max_str_digits (N.of_nat (String.length (int_repr (Z.abs z))))).

(** The key is of a class the encoder writes. *)
Definition key_fits (k : dkey) : bool :=
  match k with
  | KInt z => int_fits z
  | KObj _ => false
  | _ => true
  end.

(** [v] holds no object or key of a class the encoder cannot write, no
    [int] beyond the limit on digits, and is nested no deeper than
    [budget]. *)
Fixpoint dumpable (budget : nat) (v : pyobj) {struct v} : bool :=
  match v with
  | PInt z => int_fits z
  | PObj _ => false
  | PList l =>
      match budget with
      | 0 => false
      | S inner => forallb (dumpable inner) l
      end
  | PDict d =>
      match budget with
      | 0 => false
      | S inner => forallb (fun kv => key_fits (fst kv) && dumpable inner (snd kv)) d
      end
  | _ => true
  end.

(** [generate_text] can normalize [result_data]: it is a string, or the
    encoder accepts it. *)
Definition serializable (result_data : pyobj) : bool :=
  is_str result_data || dumpable recursion_budget result_data.

(** The classes of the exceptions the encoder raises. *)
Definition encoder_errors : list string := ["TypeError"; "ValueError"; "RecursionError"].

(** ** How a call of [generate_text] runs *)

Lemma lookup_fresh_session (l : list bool) : (l ++ [true]) !! length l = Some true.
Proof. induction l as [|b l IH]; simpl; auto. Qed.

Lemma log3 (l : list (level * string)) a b c :
  ((l ++ [a]) ++ [b]) ++ [c] = l ++ [a; b; c].
Proof. now rewrite <- !app_assoc. Qed.

(** Normalization failed: nothing is logged before the handler runs. *)
Lemma try_not_serializable srv query d e w :
  normalize d = Raises e ->
  generate_text_try srv query d w = (Raises e, w).
Proof.
  intros Hn. unfold generate_text_try, bind, lift. now rewrite Hn.
Qed.

(** The handle refers to a session that is not open. *)
Lemma try_closed srv query d data sid w :
  normalize d = Returns data ->
  _session (self w) = Some sid ->
  sessions w !! sid <> Some true ->
  generate_text_try srv query d w = (Raises session_closed, prepared query data w).
Proof.
  intros Hn Hs Hc. destruct w as [[u h m s] ss lg sn]. simpl in *. subst s.
  unfold generate_text_try, bind, lift, get_self, logger, ret, session_post,
    prepared, the_sid. simpl.
  rewrite Hn. simpl. rewrite log3.
  destruct (ss !! sid) as [[|]|] eqn:E; congruence.
Qed.

(** The handle is usable: the request goes out and the reply decides. *)
Lemma try_usable srv query d data w :
  normalize d = Returns data ->
  usable w ->
  generate_text_try srv query d w =
    let w2 := with_sent (the_sid w, the_request w query data) (prepared query data w) in
    match srv (the_request w query data) with
    | Refused e => (Raises e, w2)
    | Answered r =>
        if negb (Z.eqb (status r) 200)
        then match text r with
             | Returns body =>
                 (Returns (PStr fallback), with_log (api_error (status r) body) w2)
             | Raises e => (Raises e, w2)
             end
        else (parsed_content r, w2)
    end.
Proof.
  intros Hn Hu. destruct w as [[u h m s] ss lg sn].
  unfold usable, usableb in Hu. simpl in *.
  unfold generate_text_try, bind, lift, get_self, logger, ret, session_post,
    ClientSession, set_session, prepared, the_sid, the_request, with_sent,
    with_log, api_error, parsed_content. simpl.
  rewrite Hn. simpl.
  destruct s as [sid|]; simpl.
  - destruct (ss !! sid) as [[|]|]; try discriminate. rewrite log3.
    destruct (srv _) as [e|r]; [reflexivity|].
    destruct (negb (status r =? 200)%Z); [destruct (text r); reflexivity|].
    destruct (json r); reflexivity.
  - rewrite lookup_fresh_session, log3.
    destruct (srv _) as [e|r]; [reflexivity|].
    destruct (negb (status r =? 200)%Z); [destruct (text r); reflexivity|].
    destruct (json r); reflexivity.
Qed.

(** The handler of [generate_text]. *)
Lemma generate_text_handler srv query d w :
  generate_text srv query d w =
    match generate_text_try srv query d w with
    | (Returns v, w1) => (Returns v, w1)
    | (Raises e, w1) => (Returns (PStr fallback), with_log (caught e) w1)
    end.
Proof.
  unfold generate_text, try_except.
  destruct (generate_text_try srv query d w) as [[v|e] w1]; reflexivity.
Qed.

(** ** What [json_dumps] writes reads back *)






























(** Whatever the reply, a usable handle lets exactly one request out. *)
Lemma generate_text_sent srv query d data w :
  normalize d = Returns data ->
  usable w ->
  sent (after (generate_text srv query d w)) =
    sent w ++ [(the_sid w, the_request w query data)].
Proof.
  intros Hn Hu. rewrite generate_text_handler, (try_usable _ _ _ _ _ Hn Hu).
  cbv zeta. destruct (srv _) as [e|r]; [reflexivity|].
  destruct (negb (status r =? 200)%Z); [destruct (text r); reflexivity|].
  destruct (parsed_content r); reflexivity.
Qed.

(** A session that is held and not open makes the call fall back, and
    nothing is created or sent. *)
Lemma generate_text_closed srv query d sid w :
  _session (self w) = Some sid ->
  sessions w !! sid <> Some true ->
  let out := generate_text srv query d w in
  result out = Returns (PStr fallback) /\
  self (after out) = self w /\
  sessions (after out) = sessions w /\
  sent (after out) = sent w.
Proof.
  intros Hs Hc. cbv zeta. rewrite generate_text_handler.
  destruct (normalize d) as [data|e] eqn:Hn.
  - rewrite (try_closed _ _ _ _ _ _ Hn Hs Hc). simpl.
    unfold the_sid. rewrite Hs. destruct w as [[u h m s] ss lg sn].
    simpl in *. subst s. auto.
  - rewrite (try_not_serializable _ _ _ _ _ Hn). simpl. auto.
Qed.

(** The store and the handle after a call, on every path. *)
Lemma generate_text_session srv query d w :
  let w' := after (generate_text srv query d w) in
  match normalize d with
  | Returns data =>
      self w' = self (prepared query data w) /\
      sessions w' = sessions (prepared query data w)
  | Raises _ => self w' = self w /\ sessions w' = sessions w
  end.
Proof.
  cbv zeta. rewrite generate_text_handler.
  destruct (normalize d) as [data|e] eqn:Hn.
  - destruct (usableb w) eqn:Hu.
    + rewrite (try_usable _ _ _ _ _ Hn Hu). cbv zeta.
      destruct (srv _) as [e|r]; [simpl; auto|].
      destruct (negb (status r =? 200)%Z); [destruct (text r); simpl; auto|].
      destruct (parsed_content r); simpl; auto.
    + unfold usableb in Hu. destruct (_session (self w)) as [sid|] eqn:Hs;
        [|discriminate].
      assert (Hc : sessions w !! sid <> Some true)
        by (destruct (sessions w !! sid) as [[|]|]; congruence).
      rewrite (try_closed _ _ _ _ _ _ Hn Hs Hc). simpl. auto.
  - rewrite (try_not_serializable _ _ _ _ _ Hn). simpl. auto.
Qed.

Lemma open_count_app (w : world) (l : list bool) :
  length (List.filter (fun b : bool => b) (sessions w ++ l)) =
    open_count w + length (List.filter (fun b : bool => b) l).
Proof. unfold open_count. now rewrite List.filter_app, length_app. Qed.

(** Entering the scope always adds one open session to the store. *)
Lemma aenter_open_count (w : world) :
  open_count (after (__aenter__ w)) = S (open_count w).
Proof.
  unfold open_count at 1. simpl. rewrite open_count_app. simpl. lia.
Qed.

(** After [close()] the next call goes through a session of its own. *)
Lemma generate_text_after_close srv query d data w :
  normalize d = Returns data ->
  let w0 := after (close w) in
  let w' := after (generate_text srv query d w0) in
  _session (self w') = Some (length (sessions w)) /\
  sessions w' !! length (sessions w) = Some true /\
  sent w' = sent w ++ [(length (sessions w), the_request w query data)].
Proof.
  intros Hn. cbv zeta.
  assert (Hnone : _session (self (after (close w))) = None).
  { destruct w as [[u h m [sid|]] ss lg sn]; reflexivity. }
  assert (Hlen : length (sessions (after (close w))) = length (sessions w)).
  { destruct w as [[u h m [sid|]] ss lg sn]; simpl; [apply length_insert|reflexivity]. }
  assert (Hu : usable (after (close w))).
  { unfold usable, usableb. now rewrite Hnone. }
  pose proof (generate_text_session srv query d (after (close w))) as Hs.
  cbv zeta in Hs. rewrite Hn in Hs. destruct Hs as [Hself Hss].
  rewrite Hself, Hss, (generate_text_sent _ _ _ _ _ Hn Hu).
  unfold prepared, the_sid, the_request. simpl. rewrite Hnone, Hlen.
  split; [reflexivity|]. split.
  - rewrite <- Hlen. apply lookup_fresh_session.
  - destruct w as [[u h m [sid|]] ss lg sn]; reflexivity.
Qed.

(** ** Invariants of sequential use *)

Lemma lookup_snoc_true (l : list bool) (i : nat) :
  (l ++ [true]) !! i = Some true -> l !! i = Some true \/ i = length l.
Proof.
  intros H. destruct (Nat.lt_ge_cases i (length l)) as [Hlt|Hge].
  - left. now rewrite lookup_app_l in H.
  - right. apply lookup_lt_Some in H. rewrite length_app in H. simpl in H. lia.
Qed.

Lemma lookup_closed_true (l : list bool) (sid i : nat) :
  <[sid := false]> l !! i = Some true -> i <> sid /\ l !! i = Some true.
Proof.
  intros H. destruct (Nat.eq_dec i sid) as [->|Hne].
  - destruct (Nat.lt_ge_cases sid (length l)) as [Hlt|Hge].
    + rewrite list_lookup_insert_eq in H by exact Hlt. discriminate.
    + rewrite list_insert_ge in H by exact Hge.
      apply lookup_lt_Some in H. lia.
  - split; [exact Hne|]. now rewrite list_lookup_insert_ne in H by congruence.
Qed.

Lemma perform_session_effect (c : call) (w : world) :
  self (perform c w) = fst (session_effect c w) /\
  sessions (perform c w) = snd (session_effect c w).
Proof.
  destruct c as [| | |srv query d]; simpl.
  - split; reflexivity.
  - destruct w as [[u h m [sid|]] ss lg sn]; split; reflexivity.
  - destruct w as [[u h m [sid|]] ss lg sn]; split; reflexivity.
  - pose proof (generate_text_session srv query d w) as H. cbv zeta in H.
    destruct (normalize d); exact H.
Qed.

(** Every call keeps the handle inside the store. *)
Lemma perform_handle_valid (c : call) (w : world) :
  handle_valid w -> handle_valid (perform c w).
Proof.
  unfold handle_valid. intros Hv.
  destruct (perform_session_effect c w) as [Hself Hss]. rewrite Hself, Hss.
  clear Hself Hss. destruct w as [[u h m s] ss lg sn].
  unfold session_effect, prepared, the_sid. simpl in *.
  destruct c as [| | |srv query d]; simpl.
  - rewrite length_app. simpl. lia.
  - destruct s; simpl; [now rewrite length_insert | exact I].
  - destruct s; simpl; exact I.
  - destruct (normalize d); simpl; [|exact Hv].
    destruct s; simpl; [exact Hv|]. rewrite length_app. simpl. lia.
Qed.

Lemma run_handle_valid (cs : list call) (w : world) :
  handle_valid w -> handle_valid (run cs w).
Proof.
  revert w. induction cs as [|c cs IH]; intros w Hv; simpl; [exact Hv|].
  apply IH, perform_handle_valid, Hv.
Qed.

(** Except for [__aenter__], no call leaves an open session behind that
    the handle does not refer to. *)
Lemma perform_only_held_open (c : call) (w : world) :
  enters c = false -> only_held_open w -> only_held_open (perform c w).
Proof.
  unfold only_held_open. intros Hc Hinv i.
  destruct (perform_session_effect c w) as [Hself Hss]. rewrite Hself, Hss.
  clear Hself Hss. destruct w as [[u h m s] ss lg sn].
  unfold session_effect, prepared, the_sid. simpl in *.
  destruct c as [| | |srv query d]; simpl; [discriminate| | |].
  - destruct s as [sid|]; simpl; [|apply Hinv].
    intros Hi. apply lookup_closed_true in Hi. destruct Hi as [Hne Hi].
    apply Hinv in Hi. congruence.
  - destruct s as [sid|]; simpl; [|apply Hinv].
    intros Hi. apply lookup_closed_true in Hi. destruct Hi as [Hne Hi].
    apply Hinv in Hi. congruence.
  - destruct (normalize d); simpl; [|apply Hinv].
    destruct s as [sid|]; simpl; [apply Hinv|].
    intros Hi. apply lookup_snoc_true in Hi. destruct Hi as [Hi| ->]; [|reflexivity].
    apply Hinv in Hi. discriminate.
Qed.

Lemma run_only_held_open (cs : list call) (w : world) :
  forallb (fun c => negb (enters c)) cs = true ->
  only_held_open w -> only_held_open (run cs w).
Proof.
  revert w. induction cs as [|c cs IH]; intros w Hcs Hinv; simpl; [exact Hinv|].
  simpl in Hcs. apply andb_prop in Hcs. destruct Hcs as [Hc Hcs].
  apply IH; [exact Hcs|]. apply perform_only_held_open; [|exact Hinv].
  now destruct (enters c).
Qed.

(** After [close()] the session that was held is closed in the store. *)
Lemma close_closes_held (w : world) (sid : nat) :
  handle_valid w -> _session (self w) = Some sid ->
  sessions (after (close w)) !! sid = Some false.
Proof.
  unfold handle_valid. intros Hv Hs. rewrite Hs in Hv.
  destruct w as [[u h m s] ss lg sn]. simpl in *. subst s. simpl.
  now apply list_lookup_insert_eq.
Qed.

(** ** The claims *)

(** C1 (the code departs from it).  After the scope is left the handle
    still refers to the session that [__aexit__] closed: [generate_text]
    does not create a fresh one, the closed session is handed the request,
    nothing is sent, and the call falls back with [Session is closed] in
    the log.  [close()] does clear the handle. *)
Theorem generate_text_after_scope_exit_reuses_closed_session
    (cfg : config) (srv : endpoint) (query : string) (d : pyobj) (data : string) :
  let w := scope_entered_and_left cfg in
  let out := generate_text srv query d w in
  sessions w = [false] /\
  _session (self w) = Some 0 /\
  result out = Returns (PStr fallback) /\
  sessions (after out) = [false] /\
  _session (self (after out)) = Some 0 /\
  sent (after out) = [] /\
  List.last (log (after (generate_text srv query (PStr data) w))) (INFO, "")
    = (ERROR, "Ошибка при генерации текста: Session is closed").
Proof.
  cbv zeta.
  assert (Hs : _session (self (scope_entered_and_left cfg)) = Some 0) by reflexivity.
  assert (Hc : sessions (scope_entered_and_left cfg) !! 0 <> Some true)
    by (simpl; discriminate).
  destruct (generate_text_closed srv query d 0 _ Hs Hc) as (Hr & Hself & Hss & Hsent).
  split; [reflexivity|]. split; [reflexivity|]. split; [exact Hr|].
  split; [now rewrite Hss|]. split; [now rewrite Hself|]. split; [now rewrite Hsent|].
  rewrite generate_text_handler.
  rewrite (try_closed srv query (PStr data) data 0 _ eq_refl Hs Hc).
  reflexivity.
Qed.

(** Exceptions of the classes modelled here never leave the call: it
    returns the fallback string, or, on a 200 response, whatever
    [choices[0].message.content] holds.  When the body of the [try]
    raises, the exception is logged as an error. *)
Lemma generate_text_contains_every_exception
    (srv : endpoint) (query : string) (d : pyobj) (w : world) :
  exists v : pyval,
    result (generate_text srv query d w) = Returns v /\
    (v = PStr fallback \/
     exists data r,
       normalize d = Returns data /\
       srv (the_request w query data) = Answered r /\
       status r = 200%Z /\
       parsed_content r = Returns v) /\
    match generate_text_try srv query d w with
    | (Raises e, w1) =>
        v = PStr fallback /\
        log (after (generate_text srv query d w))
          = log w1 ++ [(ERROR, "Ошибка при генерации текста: " +:+ exn_str e)]
    | (Returns v', _) => v = v'
    end.
Proof.
  rewrite generate_text_handler.
  destruct (normalize d) as [data|e] eqn:Hn.
  - destruct (usableb w) eqn:Hu.
    + rewrite (try_usable _ _ _ _ _ Hn Hu). cbv zeta.
      destruct (srv (the_request w query data)) as [e|r] eqn:Hsrv.
      { exists (PStr fallback). simpl. auto. }
      destruct (Z.eqb_spec (status r) 200) as [H200|H200]; simpl.
      * destruct (parsed_content r) as [v|e] eqn:Hp.
        { exists v. simpl. repeat split; auto. right. exists data, r. auto. }
        { exists (PStr fallback). simpl. auto. }
      * destruct (text r); exists (PStr fallback); simpl; auto.
    + unfold usableb in Hu. destruct (_session (self w)) as [sid|] eqn:Hs;
        [|discriminate].
      assert (Hc : sessions w !! sid <> Some true)
        by (destruct (sessions w !! sid) as [[|]|]; congruence).
      rewrite (try_closed _ _ _ _ _ _ Hn Hs Hc).
      exists (PStr fallback). simpl. auto.
  - rewrite (try_not_serializable _ _ _ _ _ Hn).
    exists (PStr fallback). simpl. auto.
Qed.


(** C4 (amended).  On a response whose status is not 200,
    [generate_text] returns the fallback string, the very string the
    handler of the [try] returns for a caught exception, and logs one
    error line after the announcement: the status code and the body when
    the body can be read, the text of the exception when reading it
    raises. *)
Theorem generate_text_non_200_logs_and_falls_back
    (srv : endpoint) (query : string) (d : pyobj) (data : string) (w : world)
    (r : response) :
  normalize d = Returns data ->
  usable w ->
  srv (the_request w query data) = Answered r ->
  status r <> 200%Z ->
  let out := generate_text srv query d w in
  result out = Returns (PStr fallback) /\
  log (after out) =
    log w ++ [(INFO, "Отправка запроса к API: " +:+ url (self w));
              (DEBUG, "Запрос: " +:+ query);
              (DEBUG, "Данные: " +:+ data);
              match text r with
              | Returns body =>
                  (ERROR, "Ошибка API: " +:+ int_repr (status r) +:+ ", " +:+ body)
              | Raises e =>
                  (ERROR, "Ошибка при генерации текста: " +:+ exn_str e)
              end] /\
  (forall srv' query' d' w' e w1,
      generate_text_try srv' query' d' w' = (Raises e, w1) ->
      result (generate_text srv' query' d' w') = Returns (PStr fallback)).
Proof.
  intros Hn Hu Hsrv H200. cbv zeta.
  rewrite generate_text_handler, (try_usable _ _ _ _ _ Hn Hu). cbv zeta.
  rewrite Hsrv. destruct (Z.eqb_spec (status r) 200) as [E|_]; [contradiction|].
  simpl. split; [|split].
  - destruct (text r); reflexivity.
  - destruct (text r); simpl; rewrite <- app_assoc; reflexivity.
  - intros srv' query' d' w' e w1 Ht.
    rewrite generate_text_handler, Ht. reflexivity.
Qed.

(** C5 (the code departs from it).  [__aenter__] creates a session
    without looking at the handle: entered after a call of
    [generate_text], or entered twice, it leaves the earlier session open
    and unreferenced, so the instance has two open sessions. *)
Theorem aenter_leaves_two_open_sessions
    (cfg : config) (srv : endpoint) (query data : string) :
  let w1 := after (generate_text srv query (PStr data) (fresh cfg)) in
  let w2 := after (__aenter__ w1) in
  let w3 := after (__aenter__ (after (__aenter__ (fresh cfg)))) in
  sessions w1 = [true] /\ _session (self w1) = Some 0 /\
  sessions w2 = [true; true] /\ _session (self w2) = Some 1 /\
  open_count w2 = 2 /\
  sessions w3 = [true; true] /\ open_count w3 = 2.
Proof.
  cbv zeta.
  pose proof (generate_text_session srv query (PStr data) (fresh cfg)) as H.
  cbv zeta in H. simpl normalize in H. destruct H as [Hself Hss].
  assert (H1 : sessions (after (generate_text srv query (PStr data) (fresh cfg))) = [true])
    by (rewrite Hss; reflexivity).
  assert (H2 : sessions (after (__aenter__
             (after (generate_text srv query (PStr data) (fresh cfg))))) = [true; true])
    by (unfold __aenter__, bind, ClientSession, set_session; simpl; now rewrite H1).
  split; [exact H1|]. split; [now rewrite Hself|]. split; [exact H2|].
  split; [unfold __aenter__, bind, ClientSession, set_session; simpl; now rewrite H1|].
  split; [unfold open_count; now rewrite H2|].
  split; reflexivity.
Qed.






(** The dict that [_prepare_payload] builds. *)
Lemma prepare_payload_fields (g : TextGenerator) (query data : string) :
  _prepare_payload g query data =
    PDict [("model", PStr (model g));
           ("messages", PList [
              PDict [("role", PStr "system");
                     ("content", PStr (instruction_template +:+ data_label +:+ data))];
              PDict [("role", PStr "user");
                     ("content", PStr ("Запрос: " +:+ query +:+ "."))]])].
Proof. reflexivity. Qed.

(** C7.  The payload of the request that goes out is a dict with the two
    fields [model], the configured model, and [messages]; [messages]
    holds exactly two entries: the system message, whose content is the
    instruction text followed by the data, and then the user message
    framing the query. *)
Theorem generate_text_payload_shape
    (srv : endpoint) (query : string) (d : pyobj) (data : string) (w : world) :
  normalize d = Returns data ->
  usable w ->
  exists fields system user : list (string * pyval),
    sent (after (generate_text srv query d w)) =
      sent w ++ [(the_sid w, Request (url (self w)) (headers (self w)) (PDict fields))] /\
    List.map fst fields = ["model"; "messages"] /\
    dict_get "model" fields = Some (PStr (model (self w))) /\
    dict_get "messages" fields = Some (PList [PDict system; PDict user]) /\
    system = [("role", PStr "system");
              ("content", PStr (instruction_template +:+ data_label +:+ data))] /\
    user = [("role", PStr "user");
            ("content", PStr ("Запрос: " +:+ query +:+ "."))].
Proof.
  intros Hn Hu. do 3 eexists.
  split.
  - rewrite (generate_text_sent srv query d data w Hn Hu).
    unfold the_request. rewrite prepare_payload_fields. reflexivity.
  - repeat split; reflexivity.
Qed.

(** C8.  Nothing in [generate_text] touches the session once it is held:
    a handle that refers to a session refers to the same one afterwards
    and the store of sessions is as before, whatever the reply or the
    exception; a session created by the call is still held and open;
    and a call that fails before it needs a session creates none. *)
Theorem generate_text_leaves_session_alone
    (srv : endpoint) (query : string) (d : pyobj) (w : world) :
  let w' := after (generate_text srv query d w) in
  match _session (self w), normalize d with
  | Some sid, _ =>
      _session (self w') = Some sid /\ sessions w' = sessions w
  | None, Returns _ =>
      _session (self w') = Some (length (sessions w)) /\
      sessions w' = sessions w ++ [true] /\
      sessions w' !! length (sessions w) = Some true
  | None, Raises _ =>
      _session (self w') = None /\ sessions w' = sessions w
  end.
Proof.
  cbv zeta. pose proof (generate_text_session srv query d w) as H. cbv zeta in H.
  destruct (normalize d) as [data|e]; destruct H as [Hself Hss];
    rewrite Hself, Hss; unfold prepared, the_sid; simpl;
    destruct (_session (self w)) as [sid|] eqn:Hs; auto.
  repeat split. apply lookup_fresh_session.
Qed.

(** C9.  [close()] never raises and leaves the handle absent.  A held
    session is marked closed in the store; with no session held the
    world is untouched, and so a second [close()] changes nothing. *)
Theorem close_idempotent (w : world) :
  result (close w) = Returns tt /\
  _session (self (after (close w))) = None /\
  match _session (self w) with
  | Some sid =>
      sessions (after (close w)) = <[sid := false]> (sessions w) /\
      log (after (close w)) = log w /\ sent (after (close w)) = sent w
  | None => after (close w) = w
  end /\
  close (after (close w)) = (Returns tt, after (close w)).
Proof.
  destruct w as [[u h m [sid|]] ss lg sn]; repeat split; reflexivity.
Qed.

(** C10.  A [result_data] that is a string is not looked into: the
    system message of the payload sent is the instruction text followed
    by that very string. *)
Theorem generate_text_embeds_string_verbatim
    (srv : endpoint) (query s : string) (w : world) :
  usable w ->
  normalize (PStr s) = Returns s /\
  sent (after (generate_text srv query (PStr s) w)) =
    sent w ++
    [(the_sid w,
      Request (url (self w)) (headers (self w))
        (PDict [("model", PStr (model (self w)));
                ("messages", PList [
                   PDict [("role", PStr "system");
                          ("content", PStr (instruction_template +:+ data_label +:+ s))];
                   PDict [("role", PStr "user");
                          ("content", PStr ("Запрос: " +:+ query +:+ "."))]])]))].
Proof.
  intros Hu. split; [reflexivity|].
  exact (generate_text_sent srv query (PStr s) s w eq_refl Hu).
Qed.

(** ** More on [generate_text]: the failure paths *)

Ltac log_eq := unfold announcement; simpl; rewrite <- ?app_assoc; reflexivity.

(** The log of a call whose data was normalized: the announcement, then
    at most one error line. *)
Lemma generate_text_log srv query d data w :
  normalize d = Returns data ->
  exists tail : list (level * string),
    log (after (generate_text srv query d w)) = log w ++ announcement w query data ++ tail /\
    match generate_text_try srv query d w with
    | (Returns _, _) =>
        match srv (the_request w query data) with
        | Answered r =>
            if Z.eqb (status r) 200 then tail = []
            else exists body, text r = Returns body /\ tail = [api_error (status r) body]
        | Refused _ => False
        end
    | (Raises e, _) => tail = [caught e]
    end.
Proof.
  intros Hn. rewrite generate_text_handler. destruct (usableb w) eqn:Hu.
  - rewrite (try_usable _ _ _ _ _ Hn Hu). cbv zeta.
    destruct (srv (the_request w query data)) as [e|r].
    + exists [caught e]. split; [log_eq|reflexivity].
    + destruct (Z.eqb (status r) 200); simpl.
      * destruct (parsed_content r) as [v|e]; simpl.
        { exists []. split; [log_eq|reflexivity]. }
        { exists [caught e]. split; [log_eq|reflexivity]. }
      * destruct (text r) as [body|e] eqn:Ht.
        { exists [api_error (status r) body]. split; [log_eq|]. now exists body. }
        { exists [caught e]. split; [log_eq|reflexivity]. }
  - unfold usableb in Hu. destruct (_session (self w)) as [sid|] eqn:Hs; [|discriminate].
    assert (Hc : sessions w !! sid <> Some true)
      by (destruct (sessions w !! sid) as [[|]|]; congruence).
    rewrite (try_closed _ _ _ _ _ _ Hn Hs Hc).
    exists [caught session_closed]. split; [log_eq|reflexivity].
Qed.

(** X1.  When the transport fails, the request has gone out once, the
    exception text is logged as an error after the announcement, and the
    fallback string is returned. *)
Theorem generate_text_transport_failure
    (srv : endpoint) (query : string) (d : pyobj) (data : string) (w : world) (e : exn) :
  normalize d = Returns data ->
  usable w ->
  srv (the_request w query data) = Refused e ->
  let out := generate_text srv query d w in
  result out = Returns (PStr fallback) /\
  log (after out) =
    log w ++ [(INFO, "Отправка запроса к API: " +:+ url (self w));
              (DEBUG, "Запрос: " +:+ query);
              (DEBUG, "Данные: " +:+ data);
              (ERROR, "Ошибка при генерации текста: " +:+ exn_str e)] /\
  sent (after out) = sent w ++ [(the_sid w, the_request w query data)].
Proof.
  intros Hn Hu Hsrv. cbv zeta.
  rewrite generate_text_handler, (try_usable _ _ _ _ _ Hn Hu). cbv zeta.
  rewrite Hsrv. simpl. split; [reflexivity|]. split; [|reflexivity].
  now rewrite <- app_assoc.
Qed.

(** X2.  A 200 response whose body cannot be decoded, or does not hold
    [choices[0].message.content], is handled like any exception: the
    fallback string is returned and the exception text is logged. *)
Theorem generate_text_unusable_body
    (srv : endpoint) (query : string) (d : pyobj) (data : string) (w : world)
    (r : response) (e : exn) :
  normalize d = Returns data ->
  usable w ->
  srv (the_request w query data) = Answered r ->
  status r = 200%Z ->
  parsed_content r = Raises e ->
  let out := generate_text srv query d w in
  result out = Returns (PStr fallback) /\
  log (after out) =
    log w ++ [(INFO, "Отправка запроса к API: " +:+ url (self w));
              (DEBUG, "Запрос: " +:+ query);
              (DEBUG, "Данные: " +:+ data);
              (ERROR, "Ошибка при генерации текста: " +:+ exn_str e)].
Proof.
  intros Hn Hu Hsrv H200 Hp. cbv zeta.
  rewrite generate_text_handler, (try_usable _ _ _ _ _ Hn Hu). cbv zeta.
  rewrite Hsrv, H200, Hp. simpl. split; [reflexivity|]. now rewrite <- app_assoc.
Qed.

(** X3.  The four subscripts succeed on exactly one shape of body: a
    dict whose [choices] is a list that starts with a dict whose
    [message] is a dict that has [content]. *)
Theorem content_of_succeeds_iff (body c : pyval) :
  content_of body = Returns c <->
  exists (d : list (string * pyval)) (rest : list pyval) (m mm : list (string * pyval)),
    body = PDict d /\
    dict_get "choices" d = Some (PList (PDict m :: rest)) /\
    dict_get "message" m = Some (PDict mm) /\
    dict_get "content" mm = Some c.
Proof.
  split.
  - unfold content_of. intros H.
    destruct body as [| | | | |l|d|cls]; try discriminate H.
    cbn [getitem_str] in H.
    destruct (dict_get "choices" d) as [choices|] eqn:Hc; [|discriminate H].
    destruct choices as [| | | |s|[|x rest]|d'|cls]; try discriminate H.
    + destruct s; discriminate H.
    + cbn [getitem_0] in H.
      destruct x as [| | | | |l|m|cls]; try discriminate H.
      cbn [getitem_str] in H.
      destruct (dict_get "message" m) as [message|] eqn:Hm; [|discriminate H].
      destruct message as [| | | | |l|mm|cls]; try discriminate H.
      cbn [getitem_str] in H.
      destruct (dict_get "content" mm) as [v|] eqn:Hv; [|discriminate H].
      injection H as ->. exists d, rest, m, mm. auto.
  - intros (d & rest & m & mm & -> & Hc & Hm & Hv).
    unfold content_of. cbn [getitem_str]. rewrite Hc. cbn [getitem_0 getitem_str].
    rewrite Hm. cbn [getitem_str]. now rewrite Hv.
Qed.

(** X4.  A [result_data] that [json.dumps] rejects stops the call before
    anything else happens: nothing is announced in the log, no session is
    created, nothing is sent; the one error line is logged and the
    fallback string returned. *)
Theorem generate_text_rejected_data
    (srv : endpoint) (query : string) (d : pyobj) (e : exn) (w : world) :
  normalize d = Raises e ->
  let out := generate_text srv query d w in
  result out = Returns (PStr fallback) /\
  self (after out) = self w /\
  sessions (after out) = sessions w /\
  sent (after out) = sent w /\
  log (after out) = log w ++ [(ERROR, "Ошибка при генерации текста: " +:+ exn_str e)].
Proof.
  intros Hn. cbv zeta.
  rewrite generate_text_handler, (try_not_serializable _ _ _ _ _ Hn).
  repeat split; reflexivity.
Qed.

Lemma unusable_closed (w : world) :
  usableb w = false ->
  exists sid, _session (self w) = Some sid /\ sessions w !! sid <> Some true.
Proof.
  unfold usableb. destruct (_session (self w)) as [sid|]; [|discriminate].
  intros H. exists sid. split; [reflexivity|].
  destruct (sessions w !! sid) as [[|]|]; congruence.
Qed.

(** X6.  A successful call logs the announcement (the URL at INFO, the
    query and the data at DEBUG) and no error line. *)
Theorem generate_text_success_log
    (srv : endpoint) (query : string) (d : pyobj) (data : string) (w : world)
    (r : response) (c : pyval) :
  normalize d = Returns data ->
  usable w ->
  srv (the_request w query data) = Answered r ->
  status r = 200%Z ->
  parsed_content r = Returns c ->
  log (after (generate_text srv query d w)) =
    log w ++ [(INFO, "Отправка запроса к API: " +:+ url (self w));
              (DEBUG, "Запрос: " +:+ query);
              (DEBUG, "Данные: " +:+ data)].
Proof.
  intros Hn Hu Hsrv H200 Hp.
  rewrite generate_text_handler, (try_usable _ _ _ _ _ Hn Hu). cbv zeta.
  rewrite Hsrv, H200, Hp. reflexivity.
Qed.

(** ** What sequences of calls send *)

Lemma perform_sent (c : call) (w : world) :
  sent (perform c w) = sent w ++ requests_of c w.
Proof.
  destruct c as [| | |srv query d]; simpl.
  - now rewrite app_nil_r.
  - destruct w as [[u h m [sid|]] ss lg sn]; simpl; now rewrite app_nil_r.
  - destruct w as [[u h m [sid|]] ss lg sn]; simpl; now rewrite app_nil_r.
  - destruct (normalize d) as [data|e] eqn:Hn.
    + destruct (usableb w) eqn:Hu.
      * exact (generate_text_sent srv query d data w Hn Hu).
      * destruct (unusable_closed w Hu) as (sid & Hs & Hc).
        destruct (generate_text_closed srv query d sid w Hs Hc) as (_ & _ & _ & ->).
        now rewrite app_nil_r.
    + rewrite generate_text_handler, (try_not_serializable _ _ _ _ _ Hn).
      simpl. now rewrite app_nil_r.
Qed.

Lemma perform_config (c : call) (w : world) :
  url (self (perform c w)) = url (self w) /\
  headers (self (perform c w)) = headers (self w) /\
  model (self (perform c w)) = model (self w).
Proof.
  destruct (perform_session_effect c w) as [-> _].
  destruct w as [[u h m s] ss lg sn]. unfold session_effect, prepared. simpl.
  destruct c as [| | |srv query d]; simpl; auto.
  - destruct s; simpl; auto.
  - destruct (normalize d); simpl; auto.
Qed.

(** X7.  No call retries: a sequence of calls sends at most one request
    for each [generate_text] in it, and the other methods send none. *)
Theorem run_sends_at_most_one_request_per_call (cs : list call) (w : world) :
  length (sent (run cs w)) <= length (sent w) + length (List.filter is_generate cs).
Proof.
  revert w. induction cs as [|c cs IH]; intros w; simpl; [lia|].
  specialize (IH (perform c w)). rewrite perform_sent, length_app in IH.
  assert (Hc : length (requests_of c w) <= if is_generate c then 1 else 0).
  { destruct c as [| | |srv query d]; simpl; try lia.
    destruct (normalize d); [|simpl; lia]. destruct (usableb w); simpl; lia. }
  destruct (is_generate c); simpl; lia.
Qed.

(** X8.  Nothing changes the configuration read at construction: after
    any sequence of calls the URL, the headers and the model are those of
    [__init__], and every request sent so far went to the configured URL
    with the JSON content type, the bearer credential and the configured
    model. *)
Theorem run_keeps_configuration (cs : list call) (cfg : config) :
  let w := run cs (fresh cfg) in
  url (self w) = ai_api cfg /\
  headers (self w) = [("Content-Type", "application/json");
                      ("Authorization", "Bearer " +:+ ai_key cfg)] /\
  model (self w) = ai_model cfg /\
  List.Forall (configured cfg) (sent w).
Proof.
  cbv zeta.
  assert (Hgen : forall w,
             (url (self w) = ai_api cfg /\
              headers (self w) = [("Content-Type", "application/json");
                                  ("Authorization", "Bearer " +:+ ai_key cfg)] /\
              model (self w) = ai_model cfg /\
              List.Forall (configured cfg) (sent w)) ->
             url (self (run cs w)) = ai_api cfg /\
             headers (self (run cs w)) = [("Content-Type", "application/json");
                                          ("Authorization", "Bearer " +:+ ai_key cfg)] /\
             model (self (run cs w)) = ai_model cfg /\
             List.Forall (configured cfg) (sent (run cs w))).
  { induction cs as [|c cs IH]; intros w Hw; simpl; [exact Hw|].
    apply IH. destruct Hw as (Hu & Hh & Hm & Hs).
    destruct (perform_config c w) as (-> & -> & ->).
    split; [exact Hu|]. split; [exact Hh|]. split; [exact Hm|].
    rewrite perform_sent. apply List.Forall_app. split; [exact Hs|].
    destruct c as [| | |srv query d]; simpl; try constructor.
    destruct (normalize d) as [data|e]; [|constructor].
    destruct (usableb w); constructor; [|constructor].
    unfold configured, the_request. simpl. rewrite Hu, Hh, Hm. auto. }
  apply Hgen. simpl. repeat split; constructor.
Qed.

(** ** Sessions across calls *)

(** After a call whose data was normalized, the handle holds the session
    the call went through; if the handle was usable it still is. *)
Lemma generate_text_keeps_usable srv query d data w :
  normalize d = Returns data ->
  usable w ->
  let w1 := after (generate_text srv query d w) in
  usable w1 /\
  the_sid w1 = the_sid w /\
  _session (self w1) = Some (the_sid w) /\
  (forall q x, the_request w1 q x = the_request w q x).
Proof.
  intros Hn Hu. cbv zeta.
  pose proof (generate_text_session srv query d w) as H. cbv zeta in H.
  rewrite Hn in H. destruct H as [Hself Hss].
  unfold usable, usableb, the_sid, the_request in *. rewrite Hself, Hss.
  unfold prepared, the_sid. simpl.
  destruct (_session (self w)) as [sid|]; simpl.
  - repeat split. exact Hu.
  - rewrite lookup_fresh_session. repeat split.
Qed.

(** X9.  Two calls in a row go through one session: the second call
    finds the session the first one used and creates none. *)
Theorem generate_text_reuses_session
    (srv1 srv2 : endpoint) (q1 q2 : string) (d1 d2 : pyobj) (data1 data2 : string)
    (w : world) :
  normalize d1 = Returns data1 ->
  normalize d2 = Returns data2 ->
  usable w ->
  let w1 := after (generate_text srv1 q1 d1 w) in
  let w2 := after (generate_text srv2 q2 d2 w1) in
  sent w2 = sent w ++ [(the_sid w, the_request w q1 data1);
                       (the_sid w, the_request w q2 data2)] /\
  sessions w2 = sessions w1 /\
  _session (self w2) = Some (the_sid w).
Proof.
  intros H1 H2 Hu. cbv zeta.
  destruct (generate_text_keeps_usable srv1 q1 d1 data1 w H1 Hu) as (Hu1 & Hsid & Hh & Hreq).
  destruct (generate_text_keeps_usable srv2 q2 d2 data2 _ H2 Hu1) as (_ & _ & Hh2 & _).
  split; [|split].
  - rewrite (generate_text_sent srv2 q2 d2 data2 _ H2 Hu1).
    rewrite (generate_text_sent srv1 q1 d1 data1 w H1 Hu).
    rewrite Hsid, Hreq, <- app_assoc. reflexivity.
  - pose proof (generate_text_session srv2 q2 d2
                  (after (generate_text srv1 q1 d1 w))) as H. cbv zeta in H.
    rewrite H2 in H. destruct H as [_ ->]. unfold prepared. simpl. now rewrite Hh.
  - now rewrite Hh2, Hsid.
Qed.

Lemma no_open_filter (l : list bool) :
  (forall j, l !! j <> Some true) -> List.filter (fun b : bool => b) l = [].
Proof.
  induction l as [|b r IH]; intros H; [reflexivity|].
  destruct b; [exfalso; exact (H 0 eq_refl)|].
  simpl. apply IH. intros j. exact (H (S j)).
Qed.

Lemma at_most_one_open (l : list bool) :
  (forall i j, l !! i = Some true -> l !! j = Some true -> i = j) ->
  length (List.filter (fun b : bool => b) l) <= 1.
Proof.
  induction l as [|b r IH]; intros H; [simpl; lia|].
  destruct b; simpl.
  - rewrite no_open_filter; [simpl; lia|].
    intros j Hj. specialize (H 0 (S j) eq_refl Hj). discriminate.
  - apply IH. intros i j Hi Hj. specialize (H (S i) (S j) Hi Hj). lia.
Qed.

Lemma only_held_open_count (w : world) : only_held_open w -> open_count w <= 1.
Proof.
  unfold only_held_open, open_count. intros H. apply at_most_one_open.
  intros i j Hi Hj. apply H in Hi. apply H in Hj. congruence.
Qed.

(** X10.  As long as [__aenter__] is not called, the instance never has
    more than one open session, whatever the order of [generate_text],
    [close] and [__aexit__]; and an open session is the one held. *)
Theorem run_without_enter_one_open_session (cs : list call) (cfg : config) :
  forallb (fun c => negb (enters c)) cs = true ->
  open_count (run cs (fresh cfg)) <= 1 /\
  only_held_open (run cs (fresh cfg)).
Proof.
  intros Hcs.
  assert (H : only_held_open (run cs (fresh cfg))).
  { apply run_only_held_open; [exact Hcs|]. intros i Hi. discriminate Hi. }
  split; [apply only_held_open_count, H | exact H].
Qed.


(** Calls of [generate_text] on an instance that holds a session change
    neither the handle nor the store. *)
Lemma run_generate_held (gens : list call) (w : world) (sid : nat) :
  forallb is_generate gens = true ->
  _session (self w) = Some sid ->
  self (run gens w) = self w /\ sessions (run gens w) = sessions w.
Proof.
  revert w. induction gens as [|c gens IH]; intros w Hg Hs; simpl; [auto|].
  simpl in Hg. apply andb_prop in Hg. destruct Hg as [Hc Hg].
  destruct c as [| | |srv query d]; try discriminate Hc.
  assert (Hstep : self (perform (Generate srv query d) w) = self w /\
                  sessions (perform (Generate srv query d) w) = sessions w).
  { destruct (perform_session_effect (Generate srv query d) w) as [-> ->].
    unfold session_effect, prepared, the_sid.
    destruct (normalize d); simpl; [|auto]. rewrite Hs.
    destruct w as [[u h m s] ss lg sn]. simpl in *. subst s. auto. }
  destruct Hstep as [Hself Hss].
  destruct (IH (perform (Generate srv query d) w) Hg) as [-> ->];
    [now rewrite Hself|]. auto.
Qed.


(** X12.  [close()] absorbs [__aexit__] on either side: leaving the
    scope and then closing, or closing and then leaving the scope, ends
    in the world that [close()] alone gives. *)
Theorem close_absorbs_aexit (w : world) :
  after (close (after (__aexit__ w))) = after (close w) /\
  after (__aexit__ (after (close w))) = after (close w) /\
  result (__aexit__ w) = Returns tt /\
  self (after (__aexit__ w)) = self w.
Proof.
  destruct w as [[u h m [sid|]] ss lg sn]; simpl;
    rewrite ?list_insert_insert_eq; repeat split; reflexivity.
Qed.

Lemma perform_sessions_grow (c : call) (w : world) (i : nat) :
  length (sessions w) <= length (sessions (perform c w)) /\
  (sessions w !! i = Some false -> sessions (perform c w) !! i = Some false).
Proof.
  destruct (perform_session_effect c w) as [_ ->].
  unfold session_effect, prepared.
  assert (Hins : forall sid,
             length (sessions w) <= length (<[sid := false]> (sessions w)) /\
             (sessions w !! i = Some false ->
              <[sid := false]> (sessions w) !! i = Some false)).
  { intros sid. rewrite length_insert. split; [lia|]. intros Hi.
    destruct (Nat.eq_dec sid i) as [->|Hne].
    - apply list_lookup_insert_eq. now apply lookup_lt_Some in Hi.
    - now rewrite list_lookup_insert_ne. }
  assert (Happ : length (sessions w) <= length (sessions w ++ [true]) /\
                 (sessions w !! i = Some false ->
                  (sessions w ++ [true]) !! i = Some false)).
  { rewrite length_app. split; [lia|]. intros Hi.
    rewrite lookup_app_l; [exact Hi|]. now apply lookup_lt_Some in Hi. }
  destruct c as [| | |srv query d]; simpl.
  - exact Happ.
  - destruct (_session (self w)); simpl; [apply Hins|auto].
  - destruct (_session (self w)); simpl; [apply Hins|auto].
  - destruct (normalize d); simpl; [|auto].
    destruct (_session (self w)); simpl; [auto|exact Happ].
Qed.

(** X13.  No call reopens a session or forgets one: through any
    sequence of calls the store of sessions only grows, and a session
    that is closed stays closed. *)
Theorem run_never_reopens (cs : list call) (w : world) :
  length (sessions w) <= length (sessions (run cs w)) /\
  (forall i : nat,
      sessions w !! i = Some false -> sessions (run cs w) !! i = Some false).
Proof.
  revert w. induction cs as [|c cs IH]; intros w; simpl; [auto|].
  destruct (IH (perform c w)) as [H1 H2]. split.
  - destruct (perform_sessions_grow c w 0) as [Hlen _]. lia.
  - intros i Hi. apply H2. now apply (perform_sessions_grow c w i).
Qed.

(** X14.  An instance whose handle refers to a closed session stays
    stuck: however many times [generate_text] is called, nothing is
    sent, no session is created, the handle does not move, and the next
    call falls back as well. *)
Theorem generate_text_stuck_on_closed_session
    (gens : list call) (w : world) (sid : nat)
    (srv : endpoint) (query : string) (d : pyobj) :
  forallb is_generate gens = true ->
  _session (self w) = Some sid ->
  sessions w !! sid <> Some true ->
  self (run gens w) = self w /\
  sessions (run gens w) = sessions w /\
  sent (run gens w) = sent w /\
  result (generate_text srv query d (run gens w)) = Returns (PStr fallback).
Proof.
  intros Hg Hs Hc.
  destruct (run_generate_held gens w sid Hg Hs) as [Hself Hss].
  assert (Hsent : sent (run gens w) = sent w).
  { clear Hself Hss. revert w Hs Hc.
    induction gens as [|c gens IH]; intros w Hs Hc; simpl; [reflexivity|].
    simpl in Hg. apply andb_prop in Hg. destruct Hg as [Hcg Hg].
    destruct c as [| | |srv' query' d']; try discriminate Hcg.
    destruct (generate_text_closed srv' query' d' sid w Hs Hc) as (_ & H1 & H2 & H3).
    simpl. rewrite (IH Hg (after (generate_text srv' query' d' w)));
      [exact H3 | now rewrite H1 | now rewrite H2]. }
  split; [exact Hself|]. split; [exact Hss|]. split; [exact Hsent|].
  apply (generate_text_closed srv query d sid (run gens w)).
  - now rewrite Hself.
  - now rewrite Hss.
Qed.

(** X15.  [close()] repairs the instance in any state: the next
    [generate_text] creates a session of its own, sends its request
    through it and leaves it open and held. *)
Theorem close_then_generate_text_uses_fresh_session
    (srv : endpoint) (query : string) (d : pyobj) (data : string) (w : world) :
  normalize d = Returns data ->
  let w' := after (generate_text srv query d (after (close w))) in
  _session (self w') = Some (length (sessions w)) /\
  sessions w' !! length (sessions w) = Some true /\
  sent w' = sent w ++ [(length (sessions w), the_request w query data)].
Proof.
  intros Hn. exact (generate_text_after_close srv query d data w Hn).
Qed.

(** X16.  Entering the scope makes the instance usable whatever came
    before, a left scope included: the next [generate_text] sends its
    request through the session that [__aenter__] created. *)
Theorem aenter_then_generate_text_uses_new_session
    (srv : endpoint) (query : string) (d : pyobj) (data : string) (w : world) :
  normalize d = Returns data ->
  let w' := after (generate_text srv query d (after (__aenter__ w))) in
  sent w' = sent w ++ [(length (sessions w), the_request w query data)] /\
  _session (self w') = Some (length (sessions w)) /\
  sessions w' = sessions w ++ [true].
Proof.
  intros Hn. cbv zeta.
  assert (Hu : usable (after (__aenter__ w))).
  { unfold usable, usableb. simpl. now rewrite lookup_fresh_session. }
  split; [|split].
  - rewrite (generate_text_sent srv query d data _ Hn Hu).
    destruct w as [[u h m s] ss lg sn]. reflexivity.
  - destruct (generate_text_keeps_usable srv query d data _ Hn Hu) as (_ & _ & -> & _).
    reflexivity.
  - pose proof (generate_text_session srv query d (after (__aenter__ w))) as H.
    cbv zeta in H. rewrite Hn in H. destruct H as [_ ->]. reflexivity.
Qed.

(** X17.  Once the data is normalized, the URL, the query and the data
    are logged in that order before anything else, whether or not a
    request can be sent; at most one error line follows, and none
    follows only when the reply was a 200 whose content was found. *)
Theorem generate_text_log_shape
    (srv : endpoint) (query : string) (d : pyobj) (data : string) (w : world) :
  normalize d = Returns data ->
  exists tail : list (level * string),
    log (after (generate_text srv query d w)) =
      log w ++ [(INFO, "Отправка запроса к API: " +:+ url (self w));
                (DEBUG, "Запрос: " +:+ query);
                (DEBUG, "Данные: " +:+ data)] ++ tail /\
    (tail = [] /\
     (exists r c, srv (the_request w query data) = Answered r /\
                  status r = 200%Z /\ parsed_content r = Returns c /\
                  result (generate_text srv query d w) = Returns c)
     \/
     (exists msg, tail = [(ERROR, msg)]) /\
     result (generate_text srv query d w) = Returns (PStr fallback)).
Proof.
  intros Hn. rewrite generate_text_handler. destruct (usableb w) eqn:Hu.
  - rewrite (try_usable _ _ _ _ _ Hn Hu). cbv zeta.
    destruct (srv (the_request w query data)) as [e|r] eqn:Hsrv.
    + exists [caught e]. split; [log_eq|]. right. split; [eexists|]; reflexivity.
    + destruct (Z.eqb_spec (status r) 200) as [H200|H200]; simpl.
      * destruct (parsed_content r) as [c|e] eqn:Hp; simpl.
        { exists []. split; [log_eq|]. left. split; [reflexivity|].
          exists r, c. auto. }
        { exists [caught e]. split; [log_eq|]. right. split; [eexists|]; reflexivity. }
      * destruct (text r) as [body|e].
        { exists [api_error (status r) body]. split; [log_eq|].
          right. split; [eexists|]; reflexivity. }
        { exists [caught e]. split; [log_eq|]. right. split; [eexists|]; reflexivity. }
  - destruct (unusable_closed w Hu) as (sid & Hs & Hc).
    rewrite (try_closed _ _ _ _ _ _ Hn Hs Hc).
    exists [caught session_closed]. split; [log_eq|].
    right. split; [eexists|]; reflexivity.
Qed.


(** ** Which data reaches the network *)

Lemma int_text_outcome (z : Z) :
  match int_text z with
  | Returns _ => int_fits z = true
  | Raises e => int_fits z = false /\ List.In (exn_class e) encoder_errors
  end.
Proof.
  unfold int_text, int_fits. destruct (N.eqb max_str_digits 0); [reflexivity|].
  destruct (N.ltb _ _); cbn; [|reflexivity]. split; [reflexivity|]. right. now left.
Qed.

Lemma key_text_outcome (k : dkey) :
  match key_text k with
  | Returns _ => key_fits k = true
  | Raises e => key_fits k = false /\ List.In (exn_class e) encoder_errors
  end.
Proof.
  destruct k as [s|z|f|[|]| |cls]; cbn [key_text key_fits]; try reflexivity.
  - apply int_text_outcome.
  - split; [reflexivity|]. now left.
Qed.

(** The encoder returns exactly on the values that [dumpable] accepts,
    and raises one of its three exceptions on the others. *)
Lemma json_dumps_at_outcome (v : pyobj) :
  forall budget : nat,
    match json_dumps_at budget v with
    | Returns _ => dumpable budget v = true
    | Raises e => dumpable budget v = false /\ List.In (exn_class e) encoder_errors
    end.
Proof.
  induction v as [|b|z|f|s|l IH|d IH|cls] using pyval_nested_ind; intros budget;
    cbn [json_dumps_at dumpable]; try reflexivity; try (destruct b; reflexivity).
  - apply int_text_outcome.
  - destruct budget as [|inner].
    { split; [reflexivity|]. right. right. now left. }
    match goal with
    | |- match (match ?items true l with _ => _ end) with _ => _ end =>
        assert (H : forall first,
                   match items first l with
                   | Returns _ => forallb (dumpable inner) l = true
                   | Raises e =>
                       forallb (dumpable inner) l = false /\
                       List.In (exn_class e) encoder_errors
                   end)
    end.
    { induction IH as [|x r Hx _ IHr]; intros first; [reflexivity|].
      cbn [forallb]. specialize (Hx inner).
      destruct (json_dumps_at inner x) as [sx|e].
      - rewrite Hx. specialize (IHr false).
        match goal with
        | |- context [match ?t with Returns _ => _ | Raises _ => _ end] =>
            destruct t; exact IHr
        end.
      - destruct Hx as [-> Hcls]. split; [reflexivity | exact Hcls]. }
    specialize (H true).
    match goal with
    | |- context [match ?t with Returns _ => _ | Raises _ => _ end] =>
        destruct t; exact H
    end.
  - destruct budget as [|inner].
    { split; [reflexivity|]. right. right. now left. }
    match goal with
    | |- match (match ?items true d with _ => _ end) with _ => _ end =>
        assert (H : forall first,
                   match items first d with
                   | Returns _ =>
                       forallb (fun kv => key_fits (fst kv) && dumpable inner (snd kv)) d
                         = true
                   | Raises e =>
                       forallb (fun kv => key_fits (fst kv) && dumpable inner (snd kv)) d
                         = false /\
                       List.In (exn_class e) encoder_errors
                   end)
    end.
    { induction IH as [|[k x] r Hx _ IHr]; intros first; [reflexivity|].
      cbn [forallb snd fst] in *. specialize (Hx inner).
      pose proof (key_text_outcome k) as Hk.
      destruct (key_text k) as [sk|e].
      - rewrite Hk. destruct (json_dumps_at inner x) as [sx|e].
        + rewrite Hx. specialize (IHr false).
          match goal with
          | |- context [match ?t with Returns _ => _ | Raises _ => _ end] =>
              destruct t; exact IHr
          end.
        + destruct Hx as [-> Hcls]. split; [reflexivity | exact Hcls].
      - destruct Hk as [-> Hcls]. split; [reflexivity | exact Hcls]. }
    specialize (H true).
    match goal with
    | |- context [match ?t with Returns _ => _ | Raises _ => _ end] =>
        destruct t; exact H
    end.
  - split; [reflexivity|]. now left.
Qed.

Lemma normalize_outcome (d : pyobj) :
  match normalize d with
  | Returns _ => serializable d = true
  | Raises e => serializable d = false /\ List.In (exn_class e) encoder_errors
  end.
Proof.
  unfold serializable, normalize, json_dumps.
  destruct d; cbn [is_str orb]; try apply json_dumps_at_outcome. reflexivity.
Qed.

(** X5.  With a usable session, a request goes out exactly when
    [result_data] is a string or a value the encoder accepts: one that
    holds no object or dict key of a class [json] cannot write, no [int]
    beyond the interpreter's limit on digits, and that is nested no
    deeper than the recursion limit allows.  Otherwise nothing is sent
    and the encoder's [TypeError], [ValueError] or [RecursionError] is
    the one line logged. *)
Theorem generate_text_sends_iff_serializable
    (srv : endpoint) (query : string) (d : pyobj) (w : world) :
  usable w ->
  let out := generate_text srv query d w in
  (serializable d = true ->
   exists data,
     normalize d = Returns data /\
     sent (after out) = sent w ++ [(the_sid w, the_request w query data)]) /\
  (serializable d = false ->
   exists e,
     normalize d = Raises e /\
     List.In (exn_class e) encoder_errors /\
     sent (after out) = sent w /\
     result out = Returns (PStr fallback) /\
     log (after out) = log w ++ [(ERROR, "Ошибка при генерации текста: " +:+ exn_str e)]).
Proof.
  intros Hu. cbv zeta. pose proof (normalize_outcome d) as Ho.
  destruct (normalize d) as [data|e] eqn:Hn.
  - split; [|congruence]. intros _. exists data. split; [reflexivity|].
    exact (generate_text_sent srv query d data w Hn Hu).
  - destruct Ho as [Hf Hcls]. split; [congruence|]. intros _. exists e.
    rewrite generate_text_handler, (try_not_serializable _ _ _ _ _ Hn).
    repeat split; try reflexivity. exact Hcls.
Qed.

End Generator.

(** ** The theorems at work

    The scenarios below run under [cpython]. *)

#[global] Existing Instance cpython.

(** C2 (the code departs from it).  The 200 path returns
    [choices[0].message.content] without looking at it, although the
    method is declared [-> str] and both failure paths return a string:
    on a body whose [content] is [null] the call returns [None]. *)
Lemma generate_text_may_return_non_string :
  result (generate_text (completion PNone) "price?" (PStr "{}") (fresh cfg0))
    = Returns PNone /\
  ~ exists s : string,
      result (generate_text (completion PNone) "price?" (PStr "{}") (fresh cfg0))
        = Returns (PStr s).
Proof.
  split; [reflexivity|]. intros [s Hs]. vm_compute in Hs. discriminate Hs.
Qed.


(** C4, as stated, fails: [await response.text()] sits inside the [try]
    and can raise.  On a 500 response whose body cannot be read, the
    only error line is the handler's; no line of the log holds the
    status code. *)
Lemma generate_text_non_200_unread_body_logs_no_status :
  ~ exists entry : level * string,
      List.In entry
        (log (after (generate_text truncated "price?" (PStr "{}") (fresh cfg0)))) /\
      contains "500" (snd entry) = true.
Proof.
  intros [entry [Hin Hc]]. vm_compute in Hin.
  destruct Hin as [<-|[<-|[<-|[<-|[]]]]]; vm_compute in Hc; discriminate Hc.
Qed.

Lemma generate_text_non_200_status_500 :
  result (generate_text overloaded "price?" (PStr "{}") (fresh cfg0))
    = Returns (PStr fallback) /\
  log (after (generate_text overloaded "price?" (PStr "{}") (fresh cfg0))) =
    [(INFO, "Отправка запроса к API: http://llm.local/v1/chat/completions");
     (DEBUG, "Запрос: price?");
     (DEBUG, "Данные: {}");
     (ERROR, "Ошибка API: 500, Internal Server Error")].
Proof.
  pose proof (generate_text_non_200_logs_and_falls_back
                overloaded "price?" (PStr "{}") "{}" (fresh cfg0)
                (Response 500 (Returns "Internal Server Error")
                   (Raises (Exn "ContentTypeError" "unexpected mimetype")))
                eq_refl eq_refl eq_refl ltac:(discriminate)) as H.
  cbv zeta in H. destruct H as (Hr & Hl & _). split; [exact Hr | exact Hl].
Defined.


(** The payload built for a generator configured with [cfg0]. *)
Lemma generate_text_payload_shape_configured :
  exists fields system user : list (string * pyval),
    sent (after (generate_text (completion (PStr "Hello")) "price?"
                   (PList [PInt 1; PNone]) (fresh cfg0))) =
      [(0, Request (ai_api cfg0)
             [("Content-Type", "application/json"); ("Authorization", "Bearer KEY")]
             (PDict fields))] /\
    List.map fst fields = ["model"; "messages"] /\
    dict_get "model" fields = Some (PStr (ai_model cfg0)) /\
    dict_get "messages" fields = Some (PList [PDict system; PDict user]) /\
    system = [("role", PStr "system");
              ("content", PStr (instruction_template +:+ data_label +:+ "[1, null]"))] /\
    user = [("role", PStr "user"); ("content", PStr "Запрос: price?.")].
Proof.
  apply (generate_text_payload_shape (completion (PStr "Hello")) "price?"
           (PList [PInt 1; PNone]) "[1, null]" (fresh cfg0)); reflexivity.
Defined.

(** A string that is not JSON, and the empty string, after [close()]. *)
Lemma generate_text_embeds_broken_json_and_empty :
  (exists payload,
      sent (after (generate_text overloaded "q" (PStr "{not json") (fresh cfg0)))
        = [(0, Request "http://llm.local/v1/chat/completions"
                 [("Content-Type", "application/json"); ("Authorization", "Bearer KEY")]
                 payload)] /\
      Py.getitem_str "messages" payload
        = Returns (PList [
            PDict [("role", PStr "system");
                   ("content", PStr (instruction_template +:+ data_label +:+ "{not json"))];
            PDict [("role", PStr "user"); ("content", PStr "Запрос: q.")]])) /\
  (exists payload,
      sent (after (generate_text overloaded "q" (PStr "") (after (close (fresh cfg0)))))
        = [(0, Request "http://llm.local/v1/chat/completions"
                 [("Content-Type", "application/json"); ("Authorization", "Bearer KEY")]
                 payload)] /\
      Py.getitem_str "messages" payload
        = Returns (PList [
            PDict [("role", PStr "system");
                   ("content", PStr (instruction_template +:+ data_label))];
            PDict [("role", PStr "user"); ("content", PStr "Запрос: q.")]])).
Proof.
  split.
  - eexists. split.
    + apply (generate_text_embeds_string_verbatim overloaded "q" "{not json" (fresh cfg0)).
      reflexivity.
    + reflexivity.
  - eexists. split.
    + apply (generate_text_embeds_string_verbatim overloaded "q" "" (after (close (fresh cfg0)))).
      reflexivity.
    + vm_compute. reflexivity.
Defined.

Lemma generate_text_transport_failure_unreachable :
  result (generate_text unreachable "price?" (PStr "{}") (fresh cfg0))
    = Returns (PStr fallback) /\
  List.last (log (after (generate_text unreachable "price?" (PStr "{}") (fresh cfg0))))
            (INFO, "")
    = (ERROR, "Ошибка при генерации текста: Cannot connect to host llm.local:443") /\
  length (sent (after (generate_text unreachable "price?" (PStr "{}") (fresh cfg0)))) = 1.
Proof.
  pose proof (generate_text_transport_failure unreachable "price?" (PStr "{}") "{}"
                (fresh cfg0) _ eq_refl eq_refl eq_refl) as H.
  cbv zeta in H. destruct H as (Hr & Hl & Hs).
  split; [exact Hr|]. split; [now rewrite Hl | now rewrite Hs].
Defined.

Lemma generate_text_unusable_body_empty_object :
  result (generate_text empty_object "price?" (PStr "{}") (fresh cfg0))
    = Returns (PStr fallback) /\
  List.last (log (after (generate_text empty_object "price?" (PStr "{}") (fresh cfg0))))
            (INFO, "")
    = (ERROR, "Ошибка при генерации текста: 'choices'").
Proof.
  pose proof (generate_text_unusable_body empty_object "price?" (PStr "{}") "{}"
                (fresh cfg0) (Response 200 (Returns "{}") (Returns (PDict [])))
                (Exn "KeyError" "'choices'")
                eq_refl eq_refl eq_refl eq_refl eq_refl) as H.
  cbv zeta in H. destruct H as (Hr & Hl). split; [exact Hr | now rewrite Hl].
Defined.

Lemma content_of_succeeds_iff_hello :
  content_of (PDict [("id", PStr "cmpl-1");
                     ("choices", PList [PDict [("index", PInt 0);
                        ("message", PDict [("role", PStr "assistant");
                                           ("content", PStr "Hello")])]])])
    = Returns (PStr "Hello").
Proof.
  apply (proj2 (content_of_succeeds_iff _ _)).
  exists [("id", PStr "cmpl-1");
          ("choices", PList [PDict [("index", PInt 0);
             ("message", PDict [("role", PStr "assistant"); ("content", PStr "Hello")])]])],
         [], [("index", PInt 0);
              ("message", PDict [("role", PStr "assistant"); ("content", PStr "Hello")])],
         [("role", PStr "assistant"); ("content", PStr "Hello")].
  repeat split; reflexivity.
Defined.

Lemma generate_text_rejected_data_set :
  sessions (after (generate_text (completion (PStr "Hello")) "price?"
                     (PDict [(KStr "tags", PObj "set")]) (fresh cfg0))) = [] /\
  sent (after (generate_text (completion (PStr "Hello")) "price?"
                 (PDict [(KStr "tags", PObj "set")]) (fresh cfg0))) = [] /\
  log (after (generate_text (completion (PStr "Hello")) "price?"
                (PDict [(KStr "tags", PObj "set")]) (fresh cfg0))) =
    [(ERROR, "Ошибка при генерации текста: Object of type set is not JSON serializable")].
Proof.
  pose proof (generate_text_rejected_data (completion (PStr "Hello")) "price?"
                (PDict [(KStr "tags", PObj "set")]) _ (fresh cfg0) eq_refl) as H.
  cbv zeta in H. destruct H as (_ & _ & Hss & Hsent & Hlog).
  split; [exact Hss|]. split; [exact Hsent | exact Hlog].
Defined.

Lemma generate_text_success_log_hello :
  log (after (generate_text (completion (PStr "Hello")) "price?" (PStr "{}") (fresh cfg0))) =
    [(INFO, "Отправка запроса к API: http://llm.local/v1/chat/completions");
     (DEBUG, "Запрос: price?");
     (DEBUG, "Данные: {}")].
Proof.
  apply (generate_text_success_log (completion (PStr "Hello")) "price?" (PStr "{}") "{}"
           (fresh cfg0)
           (Response 200 (Returns "")
              (Returns (PDict [("choices",
                 PList [PDict [("message", PDict [("content", PStr "Hello")])]])])))
           (PStr "Hello")); reflexivity.
Defined.

Lemma generate_text_reuses_session_twice :
  List.map fst
    (sent (after (generate_text overloaded "b" (PList [])
                    (after (generate_text unreachable "a" (PStr "{}") (fresh cfg0))))))
    = [0; 0] /\
  sessions (after (generate_text overloaded "b" (PList [])
                     (after (generate_text unreachable "a" (PStr "{}") (fresh cfg0)))))
    = [true].
Proof.
  pose proof (generate_text_reuses_session unreachable overloaded "a" "b"
                (PStr "{}") (PList []) "{}" "[]" (fresh cfg0)
                eq_refl eq_refl eq_refl) as H.
  cbv zeta in H. destruct H as (Hs & Hss & _).
  split; [now rewrite Hs|]. rewrite Hss.
  pose proof (generate_text_session unreachable "a" (PStr "{}") (fresh cfg0)) as H.
  cbv zeta in H. simpl normalize in H. destruct H as [_ ->]. reflexivity.
Defined.

Lemma run_without_enter_one_open_session_mixed :
  open_count (run [Generate overloaded "a" (PStr "{}"); Exit; Close;
                   Generate unreachable "b" (PList [PInt 1]); Generate overloaded "c" PNone]
                  (fresh cfg0)) <= 1.
Proof.
  apply (run_without_enter_one_open_session
           [Generate overloaded "a" (PStr "{}"); Exit; Close;
            Generate unreachable "b" (PList [PInt 1]); Generate overloaded "c" PNone] cfg0).
  reflexivity.
Defined.


Lemma run_never_reopens_after_scope :
  1 <= length (sessions (run [Enter; Generate overloaded "a" (PStr "{}"); Close;
                              Generate unreachable "b" PNone]
                             (scope_entered_and_left cfg0))) /\
  sessions (run [Enter; Generate overloaded "a" (PStr "{}"); Close;
                 Generate unreachable "b" PNone]
                (scope_entered_and_left cfg0)) !! 0 = Some false.
Proof.
  destruct (run_never_reopens
              [Enter; Generate overloaded "a" (PStr "{}"); Close;
               Generate unreachable "b" PNone]
              (scope_entered_and_left cfg0)) as [Hlen Hkeep].
  split; [exact Hlen | apply Hkeep; reflexivity].
Defined.

Lemma generate_text_stuck_on_closed_session_after_scope :
  sent (run [Generate (completion (PStr "Hello")) "a" (PStr "{}");
             Generate (completion (PStr "Hello")) "b" (PStr "{}")]
            (scope_entered_and_left cfg0)) = [] /\
  result (generate_text (completion (PStr "Hello")) "c" (PStr "{}")
            (run [Generate (completion (PStr "Hello")) "a" (PStr "{}");
                  Generate (completion (PStr "Hello")) "b" (PStr "{}")]
                 (scope_entered_and_left cfg0)))
    = Returns (PStr fallback).
Proof.
  pose proof (generate_text_stuck_on_closed_session
                [Generate (completion (PStr "Hello")) "a" (PStr "{}");
                 Generate (completion (PStr "Hello")) "b" (PStr "{}")]
                (scope_entered_and_left cfg0) 0
                (completion (PStr "Hello")) "c" (PStr "{}")
                eq_refl eq_refl ltac:(discriminate)) as H.
  destruct H as (_ & _ & Hsent & Hr). split; [exact Hsent | exact Hr].
Defined.

Lemma close_then_generate_text_uses_fresh_session_after_scope :
  List.map fst
    (sent (after (generate_text (completion (PStr "Hello")) "price?" (PStr "{}")
                    (after (close (scope_entered_and_left cfg0)))))) = [1] /\
  sessions (after (generate_text (completion (PStr "Hello")) "price?" (PStr "{}")
                     (after (close (scope_entered_and_left cfg0))))) !! 1 = Some true.
Proof.
  pose proof (close_then_generate_text_uses_fresh_session
                (completion (PStr "Hello")) "price?" (PStr "{}") "{}"
                (scope_entered_and_left cfg0) eq_refl) as H.
  cbv zeta in H. destruct H as (_ & Ho & Hs).
  split; [now rewrite Hs | exact Ho].
Defined.

Lemma aenter_then_generate_text_uses_new_session_reentry :
  List.map fst
    (sent (after (generate_text (completion (PStr "Hello")) "price?" (PStr "{}")
                    (after (__aenter__ (scope_entered_and_left cfg0)))))) = [1].
Proof.
  pose proof (aenter_then_generate_text_uses_new_session
                (completion (PStr "Hello")) "price?" (PStr "{}") "{}"
                (scope_entered_and_left cfg0) eq_refl) as H.
  cbv zeta in H. destruct H as (Hs & _). now rewrite Hs.
Defined.

Lemma generate_text_log_shape_closed_session :
  exists tail : list (level * string),
    log (after (generate_text (completion (PStr "Hello")) "price?" (PStr "secret")
                  (scope_entered_and_left cfg0))) =
      [(INFO, "Отправка запроса к API: http://llm.local/v1/chat/completions");
       (DEBUG, "Запрос: price?");
       (DEBUG, "Данные: secret")] ++ tail.
Proof.
  destruct (generate_text_log_shape (completion (PStr "Hello")) "price?" (PStr "secret")
              "secret" (scope_entered_and_left cfg0) eq_refl) as (tail & Hl & _).
  exists tail. exact Hl.
Defined.

Lemma generate_text_sends_iff_serializable_prices :
  (exists data,
     normalize (PDict [(KStr "Цена", PFloat (FFinite "129.9")); (KInt 7, PNone)])
       = Returns data /\
     sent (after (generate_text overloaded "цена?"
                    (PDict [(KStr "Цена", PFloat (FFinite "129.9")); (KInt 7, PNone)])
                    (fresh cfg0))) =
       [(0, the_request (fresh cfg0) "цена?" data)]) /\
  (exists e,
     normalize (PDict [(KObj "tuple", PInt 1)]) = Raises e /\
     sent (after (generate_text overloaded "цена?" (PDict [(KObj "tuple", PInt 1)])
                    (fresh cfg0))) = []).
Proof.
  split.
  - apply (generate_text_sends_iff_serializable overloaded "цена?"
             (PDict [(KStr "Цена", PFloat (FFinite "129.9")); (KInt 7, PNone)])
             (fresh cfg0)); reflexivity.
  - destruct (generate_text_sends_iff_serializable overloaded "цена?"
                (PDict [(KObj "tuple", PInt 1)]) (fresh cfg0) eq_refl) as [_ H].
    destruct (H eq_refl) as (e & Hn & _ & Hs & _). exists e. split; [exact Hn | exact Hs].
Defined.
